(** * Interview chatbot: the tool-augmented conversation turn

    A shallow embedding of [app1.py]: the prompt builder [system_prompt],
    the search adapter [google_search] and the turn orchestrator [chat],
    with the properties of the turn protocol proved over it.

    Python values are a small inductive type; exceptions are values of an
    error type and every fallible step returns a [result]; the two network
    collaborators (the completion backend and the search provider) are
    oracles over an abstract world, and every call made to them is recorded
    in a trace so that the order of the calls can be stated. *)

From Stdlib Require Import String Ascii List ZArith Bool Arith Lia.
From Stdlib Require Import Floats.PrimFloat.
Import ListNotations.

Local Open Scope string_scope.
Local Open Scope list_scope.

(** ** Python values *)

#[local] Set Warnings "-register-all".

(** The values that flow through the program: what the UI passes as history
    entries and what [json.loads] returns.  A dict keeps its insertion order,
    so it is an association list.  A [str] is a sequence of characters; the
    character type of the model is [ascii]. *)
Inductive pyval : Type :=
| PNone
| PBool (b : bool)
| PInt (n : Z)
| PFloat (x : float)
| PStr (s : string)
| PList (l : list pyval)
| PTuple (l : list pyval)
| PDict (d : list (string * pyval)).

(** Exceptions deriving from Python's [Exception], the ones an
    [except Exception] clause catches: the class name and [str(e)]. *)
Record exn : Type := mkExn { exn_class : string; exn_text : string }.

Inductive result (A : Type) : Type :=
| OK (a : A)
| Raise (e : exn).
Arguments OK {A} a.
Arguments Raise {A} e.

Definition type_name (v : pyval) : string :=
  match v with
  | PNone => "NoneType"
  | PBool _ => "bool"
  | PInt _ => "int"
  | PFloat _ => "float"
  | PStr _ => "str"
  | PList _ => "list"
  | PTuple _ => "tuple"
  | PDict _ => "dict"
  end.

(** [bool(v)]: the truth value Python gives to [v] in an [if] or [and]. *)
Definition truthy (v : pyval) : bool :=
  match v with
  | PNone => false
  | PBool b => b
  | PInt n => negb (Z.eqb n 0)
  | PFloat x => negb (PrimFloat.eqb x PrimFloat.zero)
  | PStr s => negb (String.eqb s "")
  | PList l | PTuple l => match l with [] => false | _ => true end
  | PDict d => match d with [] => false | _ => true end
  end.

(** [isinstance(v, (list, tuple))] and [isinstance(v, dict)]. *)
Definition is_list_or_tuple (v : pyval) : bool :=
  match v with PList _ | PTuple _ => true | _ => false end.

Definition is_dict (v : pyval) : bool :=
  match v with PDict _ => true | _ => false end.

(** [len(v)] on a list or tuple (only used under [is_list_or_tuple]). *)
Definition py_len (v : pyval) : nat :=
  match v with
  | PList l | PTuple l => length l
  | PStr s => String.length s
  | PDict d => length d
  | _ => 0
  end.

(** [v[i]] for a non-negative literal index. *)
Definition py_getitem (v : pyval) (i : nat) : result pyval :=
  match v with
  | PList l =>
      match nth_error l i with
      | Some x => OK x
      | None => Raise (mkExn "IndexError" "list index out of range")
      end
  | PTuple l =>
      match nth_error l i with
      | Some x => OK x
      | None => Raise (mkExn "IndexError" "tuple index out of range")
      end
  | PStr s =>
      match String.get i s with
      | Some c => OK (PStr (String c EmptyString))
      | None => Raise (mkExn "IndexError" "string index out of range")
      end
  | _ => Raise (mkExn "TypeError"
                 ("'" ++ type_name v ++ "' object is not subscriptable"))
  end.

(** Lookup in a dict, first binding of the key. *)
Fixpoint dict_get (d : list (string * pyval)) (k : string) : option pyval :=
  match d with
  | [] => None
  | (k', v) :: rest => if String.eqb k' k then Some v else dict_get rest k
  end.

(** [v.get(k, default)]: only a dict has the method. *)
Definition py_get (v : pyval) (k : string) (default : pyval) : result pyval :=
  match v with
  | PDict d =>
      match dict_get d k with
      | Some x => OK x
      | None => OK default
      end
  | _ => Raise (mkExn "AttributeError"
                 ("'" ++ type_name v ++ "' object has no attribute 'get'"))
  end.

(** [v[:2]]: the first two items of a sequence. *)
Definition py_slice2 (v : pyval) : result pyval :=
  match v with
  | PList l => OK (PList (firstn 2 l))
  | PTuple l => OK (PTuple (firstn 2 l))
  | PStr s => OK (PStr (String.substring 0 (Nat.min 2 (String.length s)) s))
  | PDict _ => Raise (mkExn "TypeError" "unhashable type: 'slice'")
  | _ => Raise (mkExn "TypeError"
                 ("'" ++ type_name v ++ "' object is not subscriptable"))
  end.

(** ** The completion backend's response objects *)

Record Function : Type := mkFunction { name : string; arguments : string }.

Record ToolCall : Type := mkToolCall { id : string; function : Function }.

Record ChatCompletionMessage : Type := mkMessage {
  content : option string;
  tool_calls : option (list ToolCall)
}.

Record Choice : Type := mkChoice { message : ChatCompletionMessage }.

Record ChatCompletion : Type := mkCompletion { choices : list Choice }.

(** An element of the [messages] list: a dict built by [chat] or passed in
    by the caller, or the assistant message object of the first response. *)
Inductive Message : Type :=
| MDict (d : list (string * pyval))
| MObj (m : ChatCompletionMessage).

Definition user_message (c : pyval) : Message :=
  MDict [("role", PStr "user"); ("content", c)].

Definition assistant_message (c : pyval) : Message :=
  MDict [("role", PStr "assistant"); ("content", c)].

Definition system_message (c : string) : Message :=
  MDict [("role", PStr "system"); ("content", PStr c)].

Definition tool_message (call_id res : string) : Message :=
  MDict [("role", PStr "tool"); ("tool_call_id", PStr call_id);
         ("content", PStr res)].

(** The role a message carries, when it is a dict with a string role. *)
Definition role_of (m : Message) : option string :=
  match m with
  | MDict d => match dict_get d "role" with
               | Some (PStr r) => Some r
               | _ => None
               end
  | MObj _ => Some "assistant"
  end.

Definition has_role (r : string) (m : Message) : bool :=
  match role_of m with
  | Some r' => String.eqb r' r
  | None => false
  end.

(** The [tool_call_id] of a tool message. *)
Definition tool_call_id (m : Message) : option string :=
  match m with
  | MDict d => match dict_get d "tool_call_id" with
               | Some (PStr i) => Some i
               | _ => None
               end
  | MObj _ => None
  end.

(** ** Configuration *)

(** The module-level constants read from the environment at start-up
    ([os.getenv] gives [None] for a variable that is not set) and the
    knowledge base text loaded once. *)
Record Config : Type := mkConfig {
  API_KEY : option string;
  BASE_URL : option string;
  SERPER_API_KEY : option string;
  USER_NAME : option string;
  USER_ROLE : option string;
  MODEL_NAME : option string;
  GLOBAL_CONTEXT : string
}.

(** What an f-string writes for an optional string. *)
Definition fmt (o : option string) : string :=
  match o with
  | Some s => s
  | None => "None"
  end.

Definition nl : string := String (ascii_of_nat 10) EmptyString.
Definition dq : string := String (ascii_of_nat 34) EmptyString.

(** ** Prompt builder *)

Definition system_prompt (cfg : Config) : string :=
  (nl ++
   "    You are acting as " ++ fmt (USER_NAME cfg) ++ ", a "
     ++ fmt (USER_ROLE cfg) ++ "." ++ nl ++
   "    " ++ nl ++
   "    ## DUAL GOAL" ++ nl ++
   "    1. **Candidate:** Answer impressively using the RESUME CONTEXT." ++ nl ++
   "    2. **Coach:** After the answer, explain WHY it is good." ++ nl ++
   nl ++
   "    ## INSTRUCTIONS" ++ nl ++
   "    - Speak in First Person (" ++ dq ++ "I" ++ dq ++ ", "
     ++ dq ++ "Me" ++ dq ++ ")." ++ nl ++
   "    - Use the STAR Method (Situation, Task, Action, Result)." ++ nl ++
   "    - If asked about a company, use 'google_search' first." ++ nl ++
   "    - End with a 'Coach's Note'." ++ nl ++
   nl ++
   "    ## RESUME CONTEXT" ++ nl ++
   "    " ++ GLOBAL_CONTEXT cfg ++ nl ++
   "    ")%string.

(** [a] occurs in [s] as a contiguous run of characters. *)
Definition substring_of (a s : string) : Prop :=
  exists pre post : string, s = (pre ++ a ++ post)%string.

(** The same as a test, for concrete strings. *)
Fixpoint contains (a s : string) : bool :=
  String.prefix a s ||
  match s with
  | EmptyString => false
  | String _ s' => contains a s'
  end.

(** ** The tool registry *)

Definition tools : pyval :=
  PList [
    PDict [
      ("type", PStr "function");
      ("function", PDict [
        ("name", PStr "google_search");
        ("description",
          PStr "Use this to search for company info, recent news, or technical concepts.");
        ("parameters", PDict [
          ("type", PStr "object");
          ("properties", PDict [
            ("query", PDict [("type", PStr "string");
                             ("description", PStr "The search query")])
          ]);
          ("required", PList [PStr "query"])
        ])
      ])
    ]
  ].

(** ** Vocabulary for the statements about history entries *)

(** An entry that is a list or tuple with no element. *)
Definition empty_sequence (entry : pyval) : bool :=
  match entry with
  | PList [] | PTuple [] => true
  | _ => false
  end.

(** A structured entry that carries the role [system]. *)
Definition system_entry (entry : pyval) : bool :=
  match entry with
  | PDict d => has_role "system" (MDict d)
  | _ => false
  end.

(** The messages the loop of [chat] adds for one entry that has a first
    element when it is a sequence (see [normalize_history_app]). *)
Definition entry_messages (entry : pyval) : list Message :=
  match entry with
  | PList (u :: rest) | PTuple (u :: rest) =>
      user_message u ::
      match rest with
      | a :: _ => if truthy a then [assistant_message a] else []
      | [] => []
      end
  | PDict d => [MDict d]
  | _ => []
  end.

(** A tool message that answers a request: it carries the request's id. *)
Definition answers (tool_call : ToolCall) (m : Message) : Prop :=
  exists res : string, m = tool_message (id tool_call) res.

(** ** Effects: the world, the trace of calls, and exceptions *)

(** The two calls that leave the process.  A completion request carries the
    model, the messages and, on the first call only, the tool specs; a search
    request carries the URL, the headers and the JSON body. *)
Inductive event : Type :=
| CompletionCall (model : option string) (messages : list Message)
                 (tool_specs : option pyval)
| SearchCall (url : string) (headers : list (string * option string))
             (data : string).

(** The HTTP response of the search provider: its status and what
    [response.json()] gives (it raises on a body that is not JSON). *)
Record HttpResponse : Type := mkHttp {
  status_code : Z;
  json : result pyval
}.

Definition is_completion (e : event) : bool :=
  match e with CompletionCall _ _ _ => true | SearchCall _ _ _ => false end.

Definition is_search (e : event) : bool :=
  match e with SearchCall _ _ _ => true | CompletionCall _ _ _ => false end.

Definition without_tool_specs (e : event) : bool :=
  match e with
  | CompletionCall _ _ None => true
  | _ => false
  end.

Section Turn.

(** The state of everything outside the process. *)
Variable World : Type.

Variable cfg : Config.

(** [client.chat.completions.create(model=, messages=, tools=)]. *)
Variable completions_create :
  option string -> list Message -> option pyval -> World ->
  result ChatCompletion * World.

(** [requests.post(url, headers=, data=)]. *)
Variable requests_post :
  string -> list (string * option string) -> string -> World ->
  result HttpResponse * World.

(** [json.loads] and [json.dumps]; the latter is total on [pyval], every
    value of which is serialisable. *)
Variable json_loads : string -> result pyval.
Variable json_dumps : pyval -> string.

Record State : Type := mkState { world : World; trace : list event }.

(** A computation reads and updates the state and returns or raises; the
    state it leaves is kept when it raises, for the handler to go on from. *)
Definition M (A : Type) : Type := State -> result A * State.

Definition ret {A} (a : A) : M A := fun s => (OK a, s).

Definition throw {A} (e : exn) : M A := fun s => (Raise e, s).

Definition bind {A B} (m : M A) (k : A -> M B) : M B :=
  fun s =>
    match m s with
    | (OK a, s') => k a s'
    | (Raise e, s') => (Raise e, s')
    end.

(** [try: m except Exception as e: h e]. *)
Definition try_except {A} (m : M A) (h : exn -> M A) : M A :=
  fun s =>
    match m s with
    | (OK a, s') => (OK a, s')
    | (Raise e, s') => h e s'
    end.

(** A pure fallible step. *)
Definition lift {A} (r : result A) : M A := fun s => (r, s).

Notation "x <- m ;; k" := (bind m (fun x => k))
  (at level 61, m at next level, right associativity).

Definition call_completions_create (messages : list Message)
    (tool_specs : option pyval) : M ChatCompletion :=
  fun s =>
    let (r, w) :=
      completions_create (MODEL_NAME cfg) messages tool_specs (world s) in
    (r, mkState w
          (trace s ++ [CompletionCall (MODEL_NAME cfg) messages tool_specs])).

Definition call_requests_post (url : string)
    (headers : list (string * option string)) (data : string)
    : M HttpResponse :=
  fun s =>
    let (r, w) := requests_post url headers data (world s) in
    (r, mkState w (trace s ++ [SearchCall url headers data])).

(** *** Search adapter *)

(** The lines the program prints on standard output (the query in
    [google_search], the error in the handler of [chat]) are not part of
    the model.  The payload is serialized before the [try] block; the
    request, the parsing of the body, the lookup and the slice are inside
    it. *)
Definition google_search (query : pyval) : M string :=
  let url := "https://google.serper.dev/search" in
  let payload := json_dumps (PDict [("q", query)]) in
  let headers := [("X-API-KEY", SERPER_API_KEY cfg);
                  ("Content-Type", Some "application/json")] in
  try_except
    (response <- call_requests_post url headers payload ;;
     body <- lift (json response) ;;
     organic <- lift (py_get body "organic" (PList [])) ;;
     result <- lift (py_slice2 organic) ;;
     ret (json_dumps result))
    (fun e => ret ("Search Error: " ++ exn_text e)%string).

(** The call of [google_search] with [args] unpacked as keyword arguments:
    [args] must be a mapping whose keys are parameter names of the
    function, which has the one parameter [query]. *)
Fixpoint unexpected_keyword (d : list (string * pyval)) : option string :=
  match d with
  | [] => None
  | (k, _) :: rest =>
      if String.eqb k "query" then unexpected_keyword rest else Some k
  end.

Definition google_search_kwargs (args : pyval) : M string :=
  match args with
  | PDict d =>
      match unexpected_keyword d with
      | Some k =>
          throw (mkExn "TypeError"
            ("google_search() got an unexpected keyword argument '"
               ++ k ++ "'")%string)
      | None =>
          match dict_get d "query" with
          | Some q => google_search q
          | None =>
              throw (mkExn "TypeError"
                "google_search() missing 1 required positional argument: 'query'")
          end
      end
  | _ =>
      throw (mkExn "TypeError"
        ("google_search() argument after ** must be a mapping, not "
           ++ type_name args)%string)
  end.

(** The argument texts [google_search_kwargs] goes through with: a JSON
    object whose only key is [query]. *)
Definition accepts_arguments (tool_call : ToolCall) : bool :=
  match json_loads (arguments (function tool_call)) with
  | OK (PDict d) =>
      match unexpected_keyword d, dict_get d "query" with
      | None, Some _ => true
      | _, _ => false
      end
  | _ => false
  end.

(** *** Turn orchestrator *)

(** Step 1 of [chat]: the loop over [history], appending to [messages].
    It runs before the [try] block. *)
Fixpoint normalize_history (history : list pyval) (messages : list Message)
    : result (list Message) :=
  match history with
  | [] => OK messages
  | entry :: rest =>
      if is_list_or_tuple entry then
        match py_getitem entry 0 with
        | Raise e => Raise e
        | OK e0 =>
            let messages := messages ++ [user_message e0] in
            if (1 <? py_len entry)%nat then
              match py_getitem entry 1 with
              | Raise e => Raise e
              | OK e1 =>
                  if truthy e1
                  then normalize_history rest
                         (messages ++ [assistant_message e1])
                  else normalize_history rest messages
              end
            else normalize_history rest messages
        end
      else
        match entry with
        | PDict d => normalize_history rest (messages ++ [MDict d])
        | _ => normalize_history rest messages
        end
  end.

Definition build_messages (message : string) (history : list pyval)
    : result (list Message) :=
  match normalize_history history [system_message (system_prompt cfg)] with
  | Raise e => Raise e
  | OK messages => OK (messages ++ [user_message (PStr message)])
  end.

Definition registered (tool_call : ToolCall) : bool :=
  String.eqb (name (function tool_call)) "google_search".

(** The loop over [msg.tool_calls]. *)
Fixpoint dispatch (calls : list ToolCall) (messages : list Message)
    : M (list Message) :=
  match calls with
  | [] => ret messages
  | tool_call :: rest =>
      if registered tool_call then
        args <- lift (json_loads (arguments (function tool_call))) ;;
        res <- google_search_kwargs args ;;
        dispatch rest (messages ++ [tool_message (id tool_call) res])
      else dispatch rest messages
  end.

(** [response.choices[0].message]. *)
Definition first_message (response : ChatCompletion)
    : result ChatCompletionMessage :=
  match choices response with
  | c :: _ => OK (message c)
  | [] => Raise (mkExn "IndexError" "list index out of range")
  end.

(** [if msg.tool_calls]: [None] and the empty list are both false. *)
Definition requested_calls (msg : ChatCompletionMessage) : list ToolCall :=
  match tool_calls msg with
  | Some calls => calls
  | None => []
  end.

(** The body of the [try] block. *)
Definition turn (messages : list Message) : M (option string) :=
  response <- call_completions_create messages (Some tools) ;;
  msg <- lift (first_message response) ;;
  match requested_calls msg with
  | _ :: _ =>
      messages <- dispatch (requested_calls msg) (messages ++ [MObj msg]) ;;
      final_res <- call_completions_create messages None ;;
      final_msg <- lift (first_message final_res) ;;
      ret (content final_msg)
  | [] => ret (content msg)
  end.

Definition chat (message : string) (history : list pyval)
    : M (option string) :=
  messages <- lift (build_messages message history) ;;
  try_except (turn messages)
    (fun e => ret (Some ("System Error: " ++ exn_text e)%string)).

End Turn.

Arguments ret {World A} a _.
Arguments throw {World A} e _.
Arguments bind {World A B} m k _.
Arguments try_except {World A} m h _.
Arguments lift {World A} r _.
Arguments mkState {World} world trace.
Arguments world {World} s.
Arguments trace {World} s.

(** ** Knowledge base loader *)

(** [s.endswith(suffix)]. *)
Definition endswith (s suffix : string) : bool :=
  (String.length suffix <=? String.length s)%nat &&
  String.eqb
    (String.substring (String.length s - String.length suffix)
       (String.length suffix) s)
    suffix.

(** What the loader can observe of an entry of the data folder: what
    [PdfReader] makes of it (it raises, or gives pages, each with the
    outcome of its [extract_text]) and what opening and reading it as UTF-8
    text gives. *)
Record File : Type := mkFile {
  pdf_pages : result (list (result string));
  read_text : result string
}.

(** The data folder as the loader meets it: absent, with the outcome that
    [os.makedirs] will have and the outcome that [os.listdir] will have once
    the folder is made, or present, with the outcome of [os.listdir]; a
    listing gives the entries in listing order. *)
Inductive DataFolder : Type :=
| Absent (made : result unit) (listing : result (list (string * File)))
| Present (listing : result (list (string * File))).

(** [if not os.path.exists(data_folder): os.makedirs(data_folder)]. *)
Definition makedirs_if_absent (folder : DataFolder) : result DataFolder :=
  match folder with
  | Absent (Raise e) _ => Raise e
  | Absent (OK _) listing => OK (Present listing)
  | Present _ => OK folder
  end.

(** [os.listdir(data_folder)]. *)
Definition listdir (folder : DataFolder) : result (list (string * File)) :=
  match folder with
  | Present listing => listing
  | Absent _ _ =>
      Raise (mkExn "FileNotFoundError"
               "[Errno 2] No such file or directory: 'data'")
  end.

(** The loop over the pages of a PDF: each page's text and a newline are
    appended; an exception leaves what was appended so far. *)
Fixpoint extract_pages (pages : list (result string)) (context : string)
    : result unit * string :=
  match pages with
  | [] => (OK tt, context)
  | Raise e :: _ => (Raise e, context)
  | OK text :: rest => extract_pages rest (context ++ text ++ nl)%string
  end.

(** The body of the [try] block for one entry, with the context it leaves:
    a name ending in [.pdf] is read page by page, otherwise a name ending
    in [.txt] is read whole, and any other entry is not opened. *)
Definition load_file (filename : string) (f : File) (context : string)
    : result unit * string :=
  if endswith filename ".pdf" then
    match pdf_pages f with
    | Raise e => (Raise e, context)
    | OK pages => extract_pages pages context
    end
  else if endswith filename ".txt" then
    match read_text f with
    | Raise e => (Raise e, context)
    | OK text => (OK tt, (context ++ text)%string)
    end
  else (OK tt, context).

(** The loop over the entries: the handler of the [try] block prints the
    exception and the loop goes on with the next entry. *)
Fixpoint load_files (files : list (string * File)) (context : string)
    : string :=
  match files with
  | [] => context
  | (filename, f) :: rest =>
      load_files rest (snd (load_file filename f context))
  end.

Definition load_context (folder : DataFolder) : result string :=
  match makedirs_if_absent folder with
  | Raise e => Raise e
  | OK folder =>
      match listdir folder with
      | Raise e => Raise e
      | OK files => OK (load_files files "")
      end
  end.

(** ** Vocabulary for the statements about tool calls *)

(** The query a request asks for: the value of [query] in its decoded
    arguments. *)
Definition requested_query (json_loads : string -> result pyval)
    (tool_call : ToolCall) : option pyval :=
  match json_loads (arguments (function tool_call)) with
  | OK (PDict d) => dict_get d "query"
  | _ => None
  end.

(** The names of the functions a list of tool specs advertises. *)
Definition advertised_names (specs : pyval) : list string :=
  match specs with
  | PList l =>
      flat_map (fun spec =>
                  match spec with
                  | PDict d =>
                      match dict_get d "function" with
                      | Some (PDict f) =>
                          match dict_get f "name" with
                          | Some (PStr n) => [n]
                          | _ => []
                          end
                      | _ => []
                      end
                  | _ => []
                  end) l
  | _ => []
  end.

(** The parameter names a tool spec declares and the ones it requires. *)
Definition declared_parameters (spec : pyval) : list string :=
  match spec with
  | PDict d =>
      match dict_get d "function" with
      | Some (PDict f) =>
          match dict_get f "parameters" with
          | Some (PDict ps) =>
              match dict_get ps "properties" with
              | Some (PDict props) => map fst props
              | _ => []
              end
          | _ => []
          end
      | _ => []
      end
  | _ => []
  end.

(** ** A scripted world for concrete runs *)

Module Script.

(** The backend answers with the replies of a script, in order, and the
    search provider likewise; a script that has run out times out. *)
Record World : Type := mkWorld {
  completions : list (result ChatCompletion);
  searches : list (result HttpResponse)
}.

Definition completions_create (model : option string)
    (messages : list Message) (tool_specs : option pyval) (w : World)
    : result ChatCompletion * World :=
  match completions w with
  | r :: rest => (r, mkWorld rest (searches w))
  | [] => (Raise (mkExn "APITimeoutError" "Request timed out."), w)
  end.

Definition requests_post (url : string)
    (headers : list (string * option string)) (data : string) (w : World)
    : result HttpResponse * World :=
  match searches w with
  | r :: rest => (r, mkWorld (completions w) rest)
  | [] => (Raise (mkExn "ConnectionError" "Max retries exceeded"), w)
  end.

Definition quoted (s : string) : string := (dq ++ s ++ dq)%string.

Definition acme_arguments : string :=
  ("{" ++ quoted "query" ++ ": " ++ quoted "Acme Corp" ++ "}")%string.

(** A decoder that knows the one argument text the examples send and
    rejects every other text as [json.loads] rejects malformed input. *)
Definition json_loads (s : string) : result pyval :=
  if String.eqb s acme_arguments
  then OK (PDict [("query", PStr "Acme Corp")])
  else Raise (mkExn "JSONDecodeError"
                "Expecting value: line 1 column 1 (char 0)").

(** A serialiser for the values the examples send: strings, lists and
    dicts of them; it writes [null] for anything else. *)
Fixpoint json_dumps (v : pyval) : string :=
  match v with
  | PStr s => quoted s
  | PList l | PTuple l =>
      ("[" ++ String.concat ", " (map json_dumps l) ++ "]")%string
  | PDict d =>
      ("{" ++ String.concat ", "
                (map (fun kv => (quoted (fst kv) ++ ": "
                                   ++ json_dumps (snd kv))%string) d)
           ++ "}")%string
  | _ => "null"
  end.

Definition ada : Config :=
  mkConfig (Some "key") (Some "https://backend.example/v1") (Some "serper")
           (Some "Ada") (Some "Engineer") (Some "model-1") "X".

Definition chat (message : string) (history : list pyval) (w : World)
    : result (option string) * State World :=
  chat World ada completions_create requests_post json_loads json_dumps
       message history (mkState w []).

Definition reply (c : option string) (calls : option (list ToolCall))
    : result ChatCompletion :=
  OK (mkCompletion [mkChoice (mkMessage c calls)]).

Definition search_call (call_id : string) : ToolCall :=
  mkToolCall call_id (mkFunction "google_search" acme_arguments).

Definition acme_results : result HttpResponse :=
  OK (mkHttp 200 (OK (PDict [("organic", PList [PDict [("title", PStr "Acme")]])]))).

Definition three_results : result HttpResponse :=
  OK (mkHttp 200
        (OK (PDict [("organic",
                     PList [PDict [("title", PStr "A")];
                            PDict [("title", PStr "B")];
                            PDict [("title", PStr "C")]])]))).

(** A request for a tool that is not registered. *)
Definition calculator_call (call_id : string) : ToolCall :=
  mkToolCall call_id (mkFunction "calculator" "{}").

(** A request for the search tool whose arguments are not JSON. *)
Definition garbled_call (call_id : string) : ToolCall :=
  mkToolCall call_id (mkFunction "google_search" "{query: ").

Definition request (calls : list ToolCall) : ChatCompletionMessage :=
  mkMessage None (Some calls).

(** The conversation of a turn with an empty history. *)
Definition opening (message : string) : list Message :=
  [system_message (system_prompt ada); user_message (PStr message)].

Definition start (w : World) : State World := mkState w [].

(** A history with a full pair, a pair whose assistant value is [None], an
    entry of neither shape and a structured message. *)
Definition history1 : list pyval :=
  [PList [PStr "hi"; PStr "hello"];
   PTuple [PStr "and then?"; PNone];
   PInt 3;
   PDict [("role", PStr "user"); ("content", PStr "more")]].

Definition conversation1 : list Message :=
  [system_message (system_prompt ada);
   user_message (PStr "hi"); assistant_message (PStr "hello");
   user_message (PStr "and then?");
   MDict [("role", PStr "user"); ("content", PStr "more")];
   user_message (PStr "next")].

(** Entries of a data folder: a text file, a PDF of two pages, a PDF whose
    second page of three cannot be extracted, a file [PdfReader] rejects,
    and an image. *)
Definition not_a_pdf : result (list (result string)) :=
  Raise (mkExn "PdfReadError" "EOF marker not found").

Definition not_text : result string :=
  Raise (mkExn "UnicodeDecodeError" "invalid start byte").

Definition notes_txt : File := mkFile not_a_pdf (OK "Notes on Ada.").

Definition skills_txt : File := mkFile not_a_pdf (OK " Skills: proofs.").

Definition cv_pdf : File := mkFile (OK [OK "Page one"; OK "Page two"]) not_text.

Definition torn_pdf : File :=
  mkFile (OK [OK "Intro";
              Raise (mkExn "KeyError" "'/Contents'");
              OK "Appendix"])
         not_text.

Definition broken_pdf : File := mkFile not_a_pdf not_text.

Definition image_png : File := mkFile not_a_pdf not_text.

(** A configuration with nothing set in the environment. *)
Definition anonymous : Config := mkConfig None None None None None None "".

Definition wrong_key_arguments : string :=
  ("{" ++ quoted "q" ++ ": " ++ quoted "Acme Corp" ++ "}")%string.

(** A decoder that also knows an argument text with the wrong key. *)
Definition json_loads_more (s : string) : result pyval :=
  if String.eqb s wrong_key_arguments
  then OK (PDict [("q", PStr "Acme Corp")])
  else json_loads s.

Definition wrong_key_call (call_id : string) : ToolCall :=
  mkToolCall call_id (mkFunction "google_search" wrong_key_arguments).

(** A response that is refused with a JSON body. *)
Definition unauthorized : result HttpResponse :=
  OK (mkHttp 401 (OK (PDict [("message", PStr "Unauthorized.")]))).

(** A response whose body is a JSON array. *)
Definition array_body : result HttpResponse := OK (mkHttp 200 (OK (PList []))).

(** A data folder, and the configuration of a process started on it. *)
Definition library : DataFolder :=
  Present (OK [("notes.txt", notes_txt); ("photo.png", image_png);
               ("cv.pdf", cv_pdf)]).

Definition librarian : Config :=
  mkConfig (Some "key") (Some "https://backend.example/v1") (Some "serper")
           (Some "Ada") (Some "Engineer") (Some "model-1")
           (match load_context library with
            | OK context => context
            | Raise _ => ""
            end).

End Script.

(** * Properties *)

(** ** Strings *)

Lemma string_app_assoc (a b c : string) :
  ((a ++ b) ++ c = a ++ (b ++ c))%string.
Proof.
  induction a as [| ch a IH]; simpl.
  - reflexivity.
  - now rewrite IH.
Qed.

Lemma prefix_split (a s : string) :
  String.prefix a s = true -> exists post : string, s = (a ++ post)%string.
Proof.
  revert s; induction a as [| ch a IH]; intros s H.
  - exists s. reflexivity.
  - destruct s as [| ch' s]; simpl in H; [discriminate |].
    destruct (Ascii.ascii_dec ch ch') as [-> | _]; [| discriminate].
    destruct (IH s H) as [post ->].
    exists post. reflexivity.
Qed.

Lemma contains_substring_of (a s : string) :
  contains a s = true -> substring_of a s.
Proof.
  induction s as [| ch s IH]; intros H.
  - cbn [contains] in H. rewrite orb_false_r in H.
    destruct (prefix_split _ _ H) as [post E].
    exists EmptyString, post. exact E.
  - cbn [contains] in H. apply orb_true_iff in H as [H | H].
    + destruct (prefix_split _ _ H) as [post E].
      exists EmptyString, post. exact E.
    + destruct (IH H) as (pre & post & ->).
      exists (String ch pre), post. reflexivity.
Qed.

(** ** Prompt builder *)

(** C9.  The system prompt depends on the configuration only through the
    identity (name and role) and the knowledge context: two configurations
    that agree on these give the same prompt, whatever their keys, URL and
    model.  The prompt contains the name, the role and the context as
    contiguous substrings; for the identity Ada, Engineer and the context X
    it contains "Ada", "Engineer" and "X". *)
Theorem system_prompt_renders_identity_and_context :
  forall (api base serper model api' base' serper' model' : option string)
         (n r ctx : string),
    system_prompt (mkConfig api base serper (Some n) (Some r) model ctx)
      = system_prompt (mkConfig api' base' serper' (Some n) (Some r) model' ctx)
    /\ substring_of n
         (system_prompt (mkConfig api base serper (Some n) (Some r) model ctx))
    /\ substring_of r
         (system_prompt (mkConfig api base serper (Some n) (Some r) model ctx))
    /\ substring_of ctx
         (system_prompt (mkConfig api base serper (Some n) (Some r) model ctx))
    /\ contains "Ada" (system_prompt Script.ada) = true
    /\ contains "Engineer" (system_prompt Script.ada) = true
    /\ contains "X" (system_prompt Script.ada) = true.
Proof.
  intros. unfold system_prompt, substring_of; cbn [USER_NAME USER_ROLE GLOBAL_CONTEXT fmt].
  split; [reflexivity |].
  split.
  { eexists (nl ++ "    You are acting as ")%string, _. reflexivity. }
  split.
  { eexists (nl ++ "    You are acting as " ++ n ++ ", a ")%string, _.
    cbn [append nl]. do 23 f_equal.
    rewrite string_app_assoc. reflexivity. }
  split.
  { set (tail := (nl ++ "    ")%string).
    set (head1 := (nl ++ "    You are acting as ")%string).
    set (mid := ("." ++ nl ++
       "    " ++ nl ++
       "    ## DUAL GOAL" ++ nl ++
       "    1. **Candidate:** Answer impressively using the RESUME CONTEXT." ++ nl ++
       "    2. **Coach:** After the answer, explain WHY it is good." ++ nl ++
       nl ++
       "    ## INSTRUCTIONS" ++ nl ++
       "    - Speak in First Person (" ++ dq ++ "I" ++ dq ++ ", "
         ++ dq ++ "Me" ++ dq ++ ")." ++ nl ++
       "    - Use the STAR Method (Situation, Task, Action, Result)." ++ nl ++
       "    - If asked about a company, use 'google_search' first." ++ nl ++
       "    - End with a 'Coach's Note'." ++ nl ++
       nl ++
       "    ## RESUME CONTEXT" ++ nl ++
       "    ")%string).
    exists (head1 ++ n ++ ", a " ++ r ++ mid)%string, tail.
    subst head1 mid tail.
    repeat rewrite string_app_assoc. reflexivity. }
  repeat split; vm_compute; reflexivity.
Qed.

(** ** History normalization *)

Section Normalization.

Variable cfg : Config.

Lemma normalize_history_app (history : list pyval) :
  forall messages,
    existsb empty_sequence history = false ->
    normalize_history history messages
      = OK (messages ++ flat_map entry_messages history).
Proof.
  induction history as [| entry rest IH]; intros messages H.
  - simpl. now rewrite app_nil_r.
  - cbn [existsb] in H. apply orb_false_iff in H as [He Hr].
    cbn [flat_map normalize_history].
    destruct entry as [ | b | n | x | str | l | l | d ]; cbn;
      try (rewrite IH by exact Hr; reflexivity).
    + destruct l as [| u [| a more]]; [discriminate | |]; cbn.
      * rewrite IH by exact Hr. now rewrite <- app_assoc.
      * destruct (truthy a); rewrite IH by exact Hr;
          now rewrite <- !app_assoc.
    + destruct l as [| u [| a more]]; [discriminate | |]; cbn.
      * rewrite IH by exact Hr. now rewrite <- app_assoc.
      * destruct (truthy a); rewrite IH by exact Hr;
          now rewrite <- !app_assoc.
    + rewrite IH by exact Hr. now rewrite <- app_assoc.
Qed.

Lemma normalize_history_raises (history : list pyval) :
  forall messages,
    existsb empty_sequence history = true ->
    exists e, normalize_history history messages = Raise e
              /\ exn_class e = "IndexError".
Proof.
  induction history as [| entry rest IH]; intros messages H.
  - discriminate.
  - cbn [existsb] in H.
    destruct entry as [ | b | n | x | str | l | l | d ]; cbn in *;
      try (apply IH; exact H).
    + destruct l as [| u [| a more]]; cbn in *.
      * eexists; split; reflexivity.
      * apply IH; exact H.
      * destruct (truthy a); apply IH; exact H.
    + destruct l as [| u [| a more]]; cbn in *.
      * eexists; split; reflexivity.
      * apply IH; exact H.
      * destruct (truthy a); apply IH; exact H.
Qed.

Lemma build_messages_inv (message : string) (history : list pyval)
    (msgs : list Message) :
  build_messages cfg message history = OK msgs ->
  existsb empty_sequence history = false /\
  msgs = system_message (system_prompt cfg)
           :: flat_map entry_messages history ++ [user_message (PStr message)].
Proof.
  unfold build_messages. intros H.
  destruct (existsb empty_sequence history) eqn:E.
  - destruct (normalize_history_raises history
                [system_message (system_prompt cfg)] E) as (e & He & _).
    rewrite He in H. discriminate.
  - split; [reflexivity |].
    rewrite normalize_history_app in H by exact E.
    injection H as <-. reflexivity.
Qed.

(** Normalization goes through on every history without an empty list or
    tuple among its entries, whatever else the entries are. *)
Lemma build_messages_total (message : string) (history : list pyval) :
  existsb empty_sequence history = false ->
  exists msgs, build_messages cfg message history = OK msgs.
Proof.
  intros E. unfold build_messages.
  rewrite normalize_history_app by exact E. eexists; reflexivity.
Qed.

End Normalization.

Lemma entry_messages_not_system (entry : pyval) :
  system_entry entry = false ->
  forallb (fun m => negb (has_role "system" m)) (entry_messages entry) = true.
Proof.
  intros H.
  destruct entry as [ | b | n | x | str | l | l | d ]; try reflexivity.
  - destruct l as [| u [| a more]]; try reflexivity.
    cbn. destruct (truthy a); reflexivity.
  - destruct l as [| u [| a more]]; try reflexivity.
    cbn. destruct (truthy a); reflexivity.
  - cbn [entry_messages forallb]. cbn [system_entry] in H.
    now rewrite H.
Qed.

Lemma pair_entry_messages (entry u a : pyval) (more : list pyval) :
  entry = PList (u :: a :: more) \/ entry = PTuple (u :: a :: more) ->
  empty_sequence entry = false /\
  entry_messages entry
    = user_message u :: (if truthy a then [assistant_message a] else []).
Proof.
  intros [-> | ->]; split; reflexivity.
Qed.

(** C7 (as amended).  When [chat] has normalized a history, the conversation
    starts with the system message built by [system_prompt], and no other
    message has the role system provided no structured entry of the history
    has it.  A list or tuple entry with a user value [u] and an assistant
    value [a] gives the user message followed by the assistant message when
    [a] is non-empty (true in Python's sense); when [a] is empty the entry
    gives what the one-element entry [[u]] gives, so no assistant message.
    Every assistant dict message of the conversation is either a structured
    entry of the history passed through or has non-empty content. *)
Theorem normalized_conversation :
  forall (cfg : Config) (message : string) (history : list pyval)
         (msgs : list Message),
    build_messages cfg message history = OK msgs ->
    (exists rest,
        msgs = system_message (system_prompt cfg) :: rest /\
        (existsb system_entry history = false ->
         forallb (fun m => negb (has_role "system" m)) rest = true)) /\
    (forall h1 h2 entry u a more,
        history = h1 ++ entry :: h2 ->
        entry = PList (u :: a :: more) \/ entry = PTuple (u :: a :: more) ->
        (truthy a = true ->
         exists pre post,
           msgs = pre ++ user_message u :: assistant_message a :: post) /\
        (truthy a = false ->
         build_messages cfg message (h1 ++ PList [u] :: h2) = OK msgs)) /\
    (forall d,
        In (MDict d) msgs ->
        has_role "assistant" (MDict d) = true ->
        In (PDict d) history \/
        exists a, d = [("role", PStr "assistant"); ("content", a)]
                  /\ truthy a = true).
Proof.
  intros cfg message history msgs H.
  destruct (build_messages_inv cfg message history msgs H) as [E ->].
  split; [| split].
  - eexists; split; [reflexivity |].
    intros Hs. rewrite forallb_app. apply andb_true_iff; split; [| reflexivity].
    clear H E. induction history as [| entry rest IH]; [reflexivity |].
    cbn [existsb] in Hs. apply orb_false_iff in Hs as [He Hr].
    cbn [flat_map]. rewrite forallb_app, (entry_messages_not_system _ He).
    exact (IH Hr).
  - intros h1 h2 entry u a more -> Hp.
    destruct (pair_entry_messages entry u a more Hp) as [_ Hm].
    rewrite existsb_app in E. apply orb_false_iff in E as [E1 E2].
    cbn [existsb] in E2. apply orb_false_iff in E2 as [_ E2].
    rewrite flat_map_app. cbn [flat_map]. rewrite Hm.
    split; intros Ht; rewrite Ht.
    + exists (system_message (system_prompt cfg) :: flat_map entry_messages h1),
             (flat_map entry_messages h2 ++ [user_message (PStr message)]).
      cbn [app]. rewrite <- !app_assoc. reflexivity.
    + unfold build_messages.
      rewrite normalize_history_app.
      * rewrite flat_map_app. reflexivity.
      * rewrite existsb_app, E1. cbn [existsb empty_sequence orb]. exact E2.
  - intros d Hin Hrole.
    destruct Hin as [Hsys | Hin]; [injection Hsys as <-; discriminate |].
    apply in_app_or in Hin as [Hin | Hin].
    + apply in_flat_map in Hin as (entry & Hentry & Hin).
      destruct entry as [ | b | n | x | str | l | l | d' ];
        try (destruct Hin; fail).
      * destruct l as [| u [| a more]]; cbn in Hin.
        -- destruct Hin.
        -- destruct Hin as [Hu | []]. injection Hu as <-. discriminate.
        -- destruct Hin as [Hu | Hin]; [injection Hu as <-; discriminate |].
           destruct (truthy a) eqn:Ta; [| destruct Hin].
           destruct Hin as [Ha | []]. injection Ha as <-.
           right. exists a. split; [reflexivity | exact Ta].
      * destruct l as [| u [| a more]]; cbn in Hin.
        -- destruct Hin.
        -- destruct Hin as [Hu | []]. injection Hu as <-. discriminate.
        -- destruct Hin as [Hu | Hin]; [injection Hu as <-; discriminate |].
           destruct (truthy a) eqn:Ta; [| destruct Hin].
           destruct Hin as [Ha | []]. injection Ha as <-.
           right. exists a. split; [reflexivity | exact Ta].
      * destruct Hin as [Hd | []]. injection Hd as <-. left. exact Hentry.
    + destruct Hin as [Hu | []]. injection Hu as <-. discriminate.
Qed.

(** ** The turn *)

Section TurnProperties.

Variable World : Type.
Variable cfg : Config.
Variable completions_create :
  option string -> list Message -> option pyval -> World ->
  result ChatCompletion * World.
Variable requests_post :
  string -> list (string * option string) -> string -> World ->
  result HttpResponse * World.
Variable json_loads : string -> result pyval.
Variable json_dumps : pyval -> string.

Local Abbreviation search := (google_search World cfg requests_post json_dumps).
Local Abbreviation search_kwargs :=
  (google_search_kwargs World cfg requests_post json_dumps).
Local Abbreviation run_dispatch :=
  (dispatch World cfg requests_post json_loads json_dumps).
Local Abbreviation run_turn :=
  (turn World cfg completions_create requests_post json_loads json_dumps).
Local Abbreviation run_chat :=
  (chat World cfg completions_create requests_post json_loads json_dumps).
Local Abbreviation accepted := (accepts_arguments json_loads).

Local Abbreviation post query w :=
  (requests_post "https://google.serper.dev/search"
     [("X-API-KEY", SERPER_API_KEY cfg);
      ("Content-Type", Some "application/json")]
     (json_dumps (PDict [("q", query)])) w).

Local Abbreviation posted query :=
  (SearchCall "https://google.serper.dev/search"
     [("X-API-KEY", SERPER_API_KEY cfg);
      ("Content-Type", Some "application/json")]
     (json_dumps (PDict [("q", query)]))).

Local Abbreviation first_call msgs :=
  (CompletionCall (MODEL_NAME cfg) msgs (Some tools)).

Local Abbreviation second_call msgs :=
  (CompletionCall (MODEL_NAME cfg) msgs None).

(** *** Search adapter *)

Lemma google_search_run (query : pyval) (s : State World) :
  search query s
    = (OK (match fst (post query (world s)) with
           | Raise e => "Search Error: " ++ exn_text e
           | OK response =>
               match json response with
               | Raise e => "Search Error: " ++ exn_text e
               | OK body =>
                   match py_get body "organic" (PList []) with
                   | Raise e => "Search Error: " ++ exn_text e
                   | OK organic =>
                       match py_slice2 organic with
                       | Raise e => "Search Error: " ++ exn_text e
                       | OK result => json_dumps result
                       end
                   end
               end
           end)%string,
       mkState (snd (post query (world s))) (trace s ++ [posted query])).
Proof.
  unfold google_search, try_except, bind, call_requests_post, lift, ret.
  destruct (post query (world s)) as [[response | e] w]; cbn; [| reflexivity].
  destruct (json response) as [body | e]; [| reflexivity].
  destruct (py_get body "organic" (PList [])) as [organic | e]; [| reflexivity].
  destruct (py_slice2 organic) as [result | e]; reflexivity.
Qed.

(** C5.  [google_search] always returns a string and never raises.  When
    the request fails (network failure) or the body of the response does not
    parse, the string is an error text.  When the response is a JSON object
    whose [organic] is an array, the string is the serialization of the
    first two entries of the array, which is the whole array when it has
    fewer than two. *)
Theorem google_search_first_two_or_error :
  forall (query : pyval) (s : State World),
    (exists res s', search query s = (OK res, s')) /\
    (forall e w,
        post query (world s) = (Raise e, w) ->
        search query s
          = (OK ("Search Error: " ++ exn_text e)%string,
             mkState w (trace s ++ [posted query]))) /\
    (forall response e w,
        post query (world s) = (OK response, w) ->
        json response = Raise e ->
        search query s
          = (OK ("Search Error: " ++ exn_text e)%string,
             mkState w (trace s ++ [posted query]))) /\
    (forall response d organic w,
        post query (world s) = (OK response, w) ->
        json response = OK (PDict d) ->
        dict_get d "organic" = Some (PList organic) ->
        search query s
          = (OK (json_dumps (PList (firstn 2 organic))),
             mkState w (trace s ++ [posted query])) /\
        (2 <= length organic ->
         exists a b rest,
           organic = a :: b :: rest /\ firstn 2 organic = [a; b]) /\
        (length organic < 2 -> firstn 2 organic = organic)).
Proof.
  intros query s. rewrite google_search_run.
  split; [eauto |].
  split; [| split].
  - intros e w H. rewrite H. reflexivity.
  - intros response e w H Hj. rewrite H. cbn. rewrite Hj. reflexivity.
  - intros response d organic w H Hj Ho. rewrite H. cbn. rewrite Hj. cbn.
    rewrite Ho. cbn.
    split; [reflexivity |].
    split.
    + intros Hl. destruct organic as [| a [| b rest]]; cbn in Hl; try lia.
      exists a, b, rest. split; reflexivity.
    + intros Hl. destruct organic as [| a [| b rest]]; cbn in Hl; try lia;
        reflexivity.
Qed.

(** *** Dispatch of the requested calls *)

Lemma search_kwargs_run (args : pyval) (s : State World) :
  (exists q, search_kwargs args s = search q s) \/
  (exists e, search_kwargs args s = (Raise e, s)).
Proof.
  unfold google_search_kwargs.
  destruct args as [ | b | n | x | str | l | l | d ];
    try (right; eexists; reflexivity).
  destruct (unexpected_keyword d) as [k |]; [right; eexists; reflexivity |].
  destruct (dict_get d "query") as [q |]; [| right; eexists; reflexivity].
  left. exists q. reflexivity.
Qed.

Lemma search_kwargs_accepted (tool_call : ToolCall) (s : State World) :
  accepted tool_call = true ->
  exists args q,
    json_loads (arguments (function tool_call)) = OK args /\
    search_kwargs args s = search q s.
Proof.
  unfold accepts_arguments. intros H.
  destruct (json_loads (arguments (function tool_call)))
    as [[ | b | n | x | str | l | l | d ] | e]; try discriminate.
  destruct (unexpected_keyword d) as [k |] eqn:Hk; [discriminate |].
  destruct (dict_get d "query") as [q |] eqn:Hq; [| discriminate].
  exists (PDict d), q. split; [reflexivity |].
  unfold google_search_kwargs. now rewrite Hk, Hq.
Qed.

(** Whatever its outcome, the loop only issues search requests, at most one
    per registered request; when it returns, it has appended one answering
    tool message per registered request, in request order. *)
Lemma dispatch_trace (calls : list ToolCall) :
  forall messages s r s',
    run_dispatch calls messages s = (r, s') ->
    exists evs,
      trace s' = trace s ++ evs /\
      forallb is_search evs = true /\
      (forall messages',
          r = OK messages' ->
          exists tms,
            messages' = messages ++ tms /\
            Forall2 answers (filter registered calls) tms /\
            length evs = length tms).
Proof.
  induction calls as [| tool_call rest IH]; intros messages s r s' H.
  - cbn in H. injection H as <- <-. exists []. rewrite app_nil_r.
    repeat split. intros messages' E. injection E as <-.
    exists []. rewrite app_nil_r. repeat split. constructor.
  - cbn [dispatch] in H. cbn [filter].
    destruct (registered tool_call) eqn:R; [| exact (IH _ _ _ _ H)].
    unfold bind at 1, lift in H.
    destruct (json_loads (arguments (function tool_call))) as [args | e].
    + unfold bind at 1 in H.
      destruct (search_kwargs_run args s) as [[q Hq] | [e He]].
      * rewrite Hq, google_search_run in H.
        destruct (IH _ _ _ _ H) as (evs & Ht & Hs & Hm).
        exists (posted q :: evs). cbn [trace] in Ht.
        rewrite Ht, <- app_assoc. split; [reflexivity |].
        split; [exact Hs |].
        intros messages' E. destruct (Hm messages' E) as (tms & -> & Hf & Hl).
        eexists (_ :: tms). rewrite <- app_assoc. split; [reflexivity |].
        split; [| cbn; now rewrite Hl].
        constructor; [| exact Hf]. eexists; reflexivity.
      * rewrite He in H. injection H as <- <-.
        exists []. rewrite app_nil_r. repeat split. discriminate.
    + injection H as <- <-.
      exists []. rewrite app_nil_r. repeat split. discriminate.
Qed.

(** The loop returns when every registered request has arguments that
    [google_search] accepts. *)
Lemma dispatch_returns (calls : list ToolCall) :
  Forall (fun tc => registered tc = true -> accepted tc = true) calls ->
  forall messages s,
    exists messages' s', run_dispatch calls messages s = (OK messages', s').
Proof.
  induction 1 as [| tool_call rest Ha _ IH]; intros messages s.
  - eexists _, _. reflexivity.
  - cbn [dispatch]. destruct (registered tool_call) eqn:R; [| apply IH].
    destruct (search_kwargs_accepted tool_call s (Ha eq_refl))
      as (args & q & Hj & Hq).
    unfold bind at 1, lift. rewrite Hj.
    unfold bind at 1. rewrite Hq, google_search_run. apply IH.
Qed.

Lemma dispatch_skip (pre : list ToolCall) :
  forall tool_call post messages s,
    registered tool_call = false ->
    run_dispatch (pre ++ tool_call :: post) messages s
      = run_dispatch (pre ++ post) messages s.
Proof.
  induction pre as [| c pre IH]; intros tool_call post messages s R.
  - cbn [app dispatch]. now rewrite R.
  - cbn [app dispatch]. destruct (registered c); [| now apply IH].
    unfold bind at 1 3, lift.
    destruct (json_loads (arguments (function c))) as [args | e];
      [| reflexivity].
    unfold bind.
    destruct (search_kwargs args s) as [[res | e] s1]; [| reflexivity].
    now apply IH.
Qed.

(** *** The two phases of a turn *)

Lemma chat_after_normalization (message : string) (history : list pyval)
    (msgs : list Message) (s : State World) :
  build_messages cfg message history = OK msgs ->
  run_chat message history s
    = match run_turn msgs s with
      | (OK reply, s') => (OK reply, s')
      | (Raise e, s') => (OK (Some ("System Error: " ++ exn_text e)%string), s')
      end.
Proof.
  intros H. unfold chat, bind, lift, try_except, ret. rewrite H. reflexivity.
Qed.

Lemma turn_first_phase (msgs : list Message) (s : State World) :
  run_turn msgs s
    = match completions_create (MODEL_NAME cfg) msgs (Some tools) (world s) with
      | (Raise e, w1) => (Raise e, mkState w1 (trace s ++ [first_call msgs]))
      | (OK response, w1) =>
          match first_message response with
          | Raise e => (Raise e, mkState w1 (trace s ++ [first_call msgs]))
          | OK msg =>
              match requested_calls msg with
              | [] => (OK (content msg),
                       mkState w1 (trace s ++ [first_call msgs]))
              | _ :: _ =>
                  match run_dispatch (requested_calls msg)
                          (msgs ++ [MObj msg])
                          (mkState w1 (trace s ++ [first_call msgs])) with
                  | (Raise e, s2) => (Raise e, s2)
                  | (OK msgs2, s2) =>
                      match completions_create (MODEL_NAME cfg) msgs2 None
                              (world s2) with
                      | (Raise e, w3) =>
                          (Raise e,
                           mkState w3 (trace s2 ++ [second_call msgs2]))
                      | (OK final_res, w3) =>
                          match first_message final_res with
                          | Raise e =>
                              (Raise e,
                               mkState w3 (trace s2 ++ [second_call msgs2]))
                          | OK final_msg =>
                              (OK (content final_msg),
                               mkState w3 (trace s2 ++ [second_call msgs2]))
                          end
                      end
                  end
              end
          end
      end.
Proof.
  unfold turn, bind at 1, call_completions_create at 1.
  destruct (completions_create (MODEL_NAME cfg) msgs (Some tools) (world s))
    as [[response | e] w1]; [| reflexivity].
  unfold bind at 1, lift at 1.
  destruct (first_message response) as [msg | e]; [| reflexivity].
  destruct (requested_calls msg) as [| c calls] eqn:Hc; [reflexivity |].
  unfold bind at 1.
  destruct (run_dispatch (c :: calls) (msgs ++ [MObj msg])
              (mkState w1 (trace s ++ [first_call msgs])))
    as [[msgs2 | e] s2]; [| reflexivity].
  unfold bind at 1, call_completions_create.
  destruct (completions_create (MODEL_NAME cfg) msgs2 None (world s2))
    as [[final_res | e] w3]; [| reflexivity].
  unfold bind, lift, ret.
  destruct (first_message final_res) as [final_msg | e]; reflexivity.
Qed.

(** *** The claims about the turn *)

(** C4.  When the first completion answers with a message that requests no
    tool call (its [tool_calls] is absent or an empty list), [chat] returns
    the content of that message as it is, whatever it is: a text, the empty
    text or no content at all; the first completion is the only call made. *)
Theorem reply_without_tool_calls_is_returned :
  forall (message : string) (history : list pyval) (s : State World)
         (msgs : list Message) (response : ChatCompletion) (w1 : World)
         (msg : ChatCompletionMessage),
    build_messages cfg message history = OK msgs ->
    completions_create (MODEL_NAME cfg) msgs (Some tools) (world s)
      = (OK response, w1) ->
    first_message response = OK msg ->
    requested_calls msg = [] ->
    run_chat message history s
      = (OK (content msg), mkState w1 (trace s ++ [first_call msgs])).
Proof.
  intros message history s msgs response w1 msg Hb Hc Hm Hr.
  rewrite (chat_after_normalization _ _ _ _ Hb), turn_first_phase.
  rewrite Hc, Hm, Hr. reflexivity.
Qed.

(** C10.  When the first completion requests tool calls (at least one) and
    none of them names a registered tool, [chat] appends the assistant
    message with its tool calls, appends no tool message, issues the second
    completion over that conversation, without tool specs, and returns the
    content of the second completion. *)
Theorem unregistered_only_round_goes_to_second_completion :
  forall (message : string) (history : list pyval) (s : State World)
         (msgs : list Message) (response final_res : ChatCompletion)
         (w1 w2 : World) (msg final_msg : ChatCompletionMessage),
    build_messages cfg message history = OK msgs ->
    completions_create (MODEL_NAME cfg) msgs (Some tools) (world s)
      = (OK response, w1) ->
    first_message response = OK msg ->
    requested_calls msg <> [] ->
    forallb (fun tc => negb (registered tc)) (requested_calls msg) = true ->
    completions_create (MODEL_NAME cfg) (msgs ++ [MObj msg]) None w1
      = (OK final_res, w2) ->
    first_message final_res = OK final_msg ->
    run_chat message history s
      = (OK (content final_msg),
         mkState w2 (trace s ++ [first_call msgs;
                                 second_call (msgs ++ [MObj msg])])).
Proof.
  intros message history s msgs response final_res w1 w2 msg final_msg
    Hb Hc Hm Hne Hun Hc2 Hm2.
  rewrite (chat_after_normalization _ _ _ _ Hb), turn_first_phase.
  rewrite Hc, Hm.
  assert (Hd : forall messages s0,
             run_dispatch (requested_calls msg) messages s0
               = (OK messages, s0)).
  { revert Hun. generalize (requested_calls msg) as calls.
    induction calls as [| c calls IH]; intros Hun messages s0.
    - reflexivity.
    - cbn [forallb] in Hun. apply andb_true_iff in Hun as [Hc0 Hrest].
      cbn [dispatch]. apply negb_true_iff in Hc0. rewrite Hc0.
      now apply IH. }
  destruct (requested_calls msg) as [| c calls] eqn:E; [now elim Hne |].
  rewrite Hd. cbn [world trace]. rewrite Hc2, Hm2.
  rewrite <- app_assoc. reflexivity.
Qed.

Lemma dispatch_app (pre : list ToolCall) :
  forall post messages s,
    run_dispatch (pre ++ post) messages s
      = match run_dispatch pre messages s with
        | (OK messages1, s1) => run_dispatch post messages1 s1
        | (Raise e, s1) => (Raise e, s1)
        end.
Proof.
  induction pre as [| c pre IH]; intros post messages s.
  - reflexivity.
  - cbn [app dispatch]. destruct (registered c); [| apply IH].
    unfold bind at 1 3, lift.
    destruct (json_loads (arguments (function c))) as [args | e];
      [| reflexivity].
    unfold bind.
    destruct (search_kwargs args s) as [[res | e] s1]; [| reflexivity].
    apply IH.
Qed.

Lemma answers_ids (calls : list ToolCall) (tms : list Message) :
  Forall2 answers calls tms ->
  map tool_call_id tms = map (fun tc => Some (id tc)) calls.
Proof.
  induction 1 as [| tc tm calls tms [res ->] _ IH]; [reflexivity |].
  cbn [map]. rewrite IH. reflexivity.
Qed.

Lemma filter_all {A} (f : A -> bool) (l : list A) :
  forallb f l = true -> filter f l = l.
Proof.
  induction l as [| a l IH]; [reflexivity |].
  cbn. intros H. apply andb_true_iff in H as [-> H]. now rewrite IH.
Qed.

(** C3.  Once the history is normalized, [chat] returns a reply and raises
    nothing.  When the first completion call raises, when the decoding of
    the arguments of a registered tool call raises (the calls before it
    having been dispatched), or when the second completion call raises,
    the reply is the text "System Error: " followed by the text of the
    exception, so it starts with the marker "System Error". *)
Theorem exceptions_become_system_error :
  forall (message : string) (history : list pyval) (s : State World)
         (msgs : list Message),
    build_messages cfg message history = OK msgs ->
    (exists reply s', run_chat message history s = (OK reply, s')) /\
    (forall e w1,
        completions_create (MODEL_NAME cfg) msgs (Some tools) (world s)
          = (Raise e, w1) ->
        run_chat message history s
          = (OK (Some ("System Error: " ++ exn_text e)%string),
             mkState w1 (trace s ++ [first_call msgs]))) /\
    (forall response w1 msg pre tool_call post msgs1 s1 e,
        completions_create (MODEL_NAME cfg) msgs (Some tools) (world s)
          = (OK response, w1) ->
        first_message response = OK msg ->
        requested_calls msg = pre ++ tool_call :: post ->
        run_dispatch pre (msgs ++ [MObj msg])
            (mkState w1 (trace s ++ [first_call msgs]))
          = (OK msgs1, s1) ->
        registered tool_call = true ->
        json_loads (arguments (function tool_call)) = Raise e ->
        run_chat message history s
          = (OK (Some ("System Error: " ++ exn_text e)%string), s1)) /\
    (forall response w1 msg msgs2 s2 e w3,
        completions_create (MODEL_NAME cfg) msgs (Some tools) (world s)
          = (OK response, w1) ->
        first_message response = OK msg ->
        requested_calls msg <> [] ->
        run_dispatch (requested_calls msg) (msgs ++ [MObj msg])
            (mkState w1 (trace s ++ [first_call msgs]))
          = (OK msgs2, s2) ->
        completions_create (MODEL_NAME cfg) msgs2 None (world s2)
          = (Raise e, w3) ->
        run_chat message history s
          = (OK (Some ("System Error: " ++ exn_text e)%string),
             mkState w3 (trace s2 ++ [second_call msgs2]))) /\
    (forall e,
        String.prefix "System Error" ("System Error: " ++ exn_text e) = true).
Proof.
  intros message history s msgs Hb.
  rewrite (chat_after_normalization _ _ _ _ Hb).
  split; [| split; [| split; [| split]]].
  - destruct (run_turn msgs s) as [[reply | e] s']; eauto.
  - intros e w1 Hc. rewrite turn_first_phase, Hc. reflexivity.
  - intros response w1 msg pre tool_call post msgs1 s1 e Hc Hm Hr Hd R Hj.
    rewrite turn_first_phase, Hc, Hm.
    destruct (requested_calls msg) as [| c calls] eqn:E.
    { now apply app_cons_not_nil in Hr. }
    rewrite Hr, dispatch_app, Hd. cbn [dispatch]. rewrite R.
    unfold bind at 1, lift. rewrite Hj. reflexivity.
  - intros response w1 msg msgs2 s2 e w3 Hc Hm Hne Hd Hc2.
    rewrite turn_first_phase, Hc, Hm.
    destruct (requested_calls msg) as [| c calls] eqn:E; [now elim Hne |].
    rewrite Hd, Hc2. reflexivity.
  - intros e. reflexivity.
Qed.

(** C1 (as amended).  When the first completion requests N >= 1 tool calls
    and the arguments of every request that names [google_search] decode to
    an object with the single key [query], [chat] issues the second
    completion over the conversation extended by the assistant message and
    then by one tool message per request that names [google_search], in
    request order, each carrying the id of its request; between the two
    completion calls only search requests are made.  When all N requests
    name [google_search], these are exactly N tool messages whose ids are
    the ids of the requests in order. *)
Theorem tool_results_follow_registered_requests :
  forall (message : string) (history : list pyval) (s : State World)
         (msgs : list Message) (response : ChatCompletion) (w1 : World)
         (msg : ChatCompletionMessage),
    build_messages cfg message history = OK msgs ->
    completions_create (MODEL_NAME cfg) msgs (Some tools) (world s)
      = (OK response, w1) ->
    first_message response = OK msg ->
    requested_calls msg <> [] ->
    Forall (fun tc => registered tc = true -> accepted tc = true)
           (requested_calls msg) ->
    exists tms evs,
      trace (snd (run_chat message history s))
        = trace s ++ first_call msgs :: evs
            ++ [second_call (msgs ++ MObj msg :: tms)] /\
      forallb is_search evs = true /\
      Forall2 answers (filter registered (requested_calls msg)) tms /\
      map tool_call_id tms
        = map (fun tc => Some (id tc))
              (filter registered (requested_calls msg)) /\
      (forallb registered (requested_calls msg) = true ->
       length tms = length (requested_calls msg) /\
       map tool_call_id tms
         = map (fun tc => Some (id tc)) (requested_calls msg)).
Proof.
  intros message history s msgs response w1 msg Hb Hc Hm Hne Hacc.
  rewrite (chat_after_normalization _ _ _ _ Hb), turn_first_phase, Hc, Hm.
  destruct (requested_calls msg) as [| c calls] eqn:E; [now elim Hne |].
  rewrite <- E in *. clear E c calls.
  destruct (dispatch_returns _ Hacc (msgs ++ [MObj msg])
              (mkState w1 (trace s ++ [first_call msgs])))
    as (msgs2 & s2 & Hd).
  rewrite Hd.
  destruct (dispatch_trace _ _ _ _ _ Hd) as (evs & Ht & Hs & Hmsgs).
  destruct (Hmsgs msgs2 eq_refl) as (tms & -> & Hans & Hlen).
  exists tms, evs.
  assert (Htrace : forall (r : result (option string)) (w3 : World),
    trace (snd (r, mkState w3 (trace s2
                  ++ [second_call ((msgs ++ [MObj msg]) ++ tms)])))
      = trace s ++ first_call msgs :: evs
          ++ [second_call (msgs ++ MObj msg :: tms)]).
  { intros r w3. cbn [snd trace]. rewrite Ht. cbn [trace].
    rewrite <- !app_assoc. reflexivity. }
  split.
  { destruct (completions_create (MODEL_NAME cfg)
                ((msgs ++ [MObj msg]) ++ tms) None (world s2))
      as [[final_res | e] w3].
    - destruct (first_message final_res); apply Htrace.
    - apply Htrace. }
  split; [exact Hs |].
  split; [exact Hans |].
  split; [exact (answers_ids _ _ Hans) |].
  intros Hall. rewrite (filter_all _ _ Hall) in Hans.
  split; [symmetry; exact (Forall2_length Hans) | exact (answers_ids _ _ Hans)].
Qed.

(** C2 (as amended).  A request that names an unregistered tool is passed
    over: dispatching the requests of a response with such a request among
    them does what dispatching the others alone does (same messages, same
    outcome, same calls to the search provider), so the turn does not fail
    on it and the requests after it are dispatched; the tool messages
    appended answer the registered requests before and after it, and none
    answers it. *)
Theorem unregistered_request_is_skipped :
  forall (pre : list ToolCall) (tool_call : ToolCall) (post : list ToolCall)
         (messages : list Message) (s : State World),
    registered tool_call = false ->
    run_dispatch (pre ++ tool_call :: post) messages s
      = run_dispatch (pre ++ post) messages s /\
    (forall messages' s',
        run_dispatch (pre ++ tool_call :: post) messages s
          = (OK messages', s') ->
        exists tms,
          messages' = messages ++ tms /\
          Forall2 answers (filter registered pre ++ filter registered post)
                  tms).
Proof.
  intros pre tool_call post messages s R.
  split; [now apply dispatch_skip |].
  intros messages' s' H.
  destruct (dispatch_trace _ _ _ _ _ H) as (evs & _ & _ & Hm).
  destruct (Hm messages' eq_refl) as (tms & -> & Hans & _).
  exists tms. split; [reflexivity |].
  rewrite filter_app in Hans. cbn [filter] in Hans. now rewrite R in Hans.
Qed.

(** C6 (the code departs from it).  A history with an entry that is an
    empty list makes [chat] raise: the entry's first element is read before
    the [try] block, with no test on the length of the entry, and the
    [IndexError] reaches the caller; no call has been made. *)
Theorem chat_raises_on_empty_history_entry :
  forall (message : string) (s : State World),
    run_chat message [PList []] s
      = (Raise (mkExn "IndexError" "list index out of range"), s).
Proof.
  intros message s. reflexivity.
Qed.

End TurnProperties.

(** * Concrete runs *)

Lemma google_search_first_two_or_error_witness :
  google_search Script.World Script.ada Script.requests_post Script.json_dumps
      (PStr "Acme Corp") (Script.start (Script.mkWorld [] [Script.three_results]))
    = (OK (Script.json_dumps
             (PList [PDict [("title", PStr "A")]; PDict [("title", PStr "B")]])),
       mkState (Script.mkWorld [] [])
         [SearchCall "https://google.serper.dev/search"
            [("X-API-KEY", Some "serper");
             ("Content-Type", Some "application/json")]
            (Script.json_dumps (PDict [("q", PStr "Acme Corp")]))]).
Proof.
  destruct (google_search_first_two_or_error
              Script.World Script.ada Script.requests_post Script.json_dumps
              (PStr "Acme Corp")
              (Script.start (Script.mkWorld [] [Script.three_results])))
    as (_ & _ & _ & H).
  exact (proj1 (H (mkHttp 200
                     (OK (PDict [("organic",
                                  PList [PDict [("title", PStr "A")];
                                         PDict [("title", PStr "B")];
                                         PDict [("title", PStr "C")]])])))
                  _ _ (Script.mkWorld [] []) eq_refl eq_refl eq_refl)).
Defined.

Lemma normalized_conversation_witness :
  build_messages Script.ada "next" Script.history1 = OK Script.conversation1 /\
  (exists pre post,
      Script.conversation1
        = pre ++ user_message (PStr "hi") :: assistant_message (PStr "hello")
              :: post) /\
  build_messages Script.ada "next"
      ([PList [PStr "hi"; PStr "hello"]] ++ PList [PStr "and then?"]
         :: [PInt 3; PDict [("role", PStr "user"); ("content", PStr "more")]])
    = OK Script.conversation1.
Proof.
  split; [reflexivity |].
  destruct (normalized_conversation Script.ada "next" Script.history1
              Script.conversation1 eq_refl) as (_ & Hp & _).
  split.
  - exact (proj1 (Hp [] _ _ (PStr "hi") (PStr "hello") []
                     eq_refl (or_introl eq_refl)) eq_refl).
  - exact (proj2 (Hp [PList [PStr "hi"; PStr "hello"]] _ _
                     (PStr "and then?") PNone []
                     eq_refl (or_intror eq_refl)) eq_refl).
Defined.

(** A structured entry with the role system is passed through, and the
    conversation then starts with two system messages. *)
Lemma history_system_entry_gives_two_system_messages :
  build_messages Script.ada "hi"
      [PDict [("role", PStr "system"); ("content", PStr "x")]]
    = OK [system_message (system_prompt Script.ada);
          MDict [("role", PStr "system"); ("content", PStr "x")];
          user_message (PStr "hi")]
  /\ map (has_role "system")
        [system_message (system_prompt Script.ada);
         MDict [("role", PStr "system"); ("content", PStr "x")];
         user_message (PStr "hi")]
      = [true; true; false].
Proof.
  split; reflexivity.
Qed.

Lemma reply_without_tool_calls_is_returned_witness :
  Script.chat "Tell me about yourself" []
      (Script.mkWorld [Script.reply (Some "") None] [])
    = (OK (Some ""),
       mkState (Script.mkWorld [] [])
         [CompletionCall (Some "model-1")
            (Script.opening "Tell me about yourself") (Some tools)]).
Proof.
  exact (reply_without_tool_calls_is_returned
           Script.World Script.ada Script.completions_create
           Script.requests_post Script.json_loads Script.json_dumps
           "Tell me about yourself" []
           (Script.start (Script.mkWorld [Script.reply (Some "") None] []))
           (Script.opening "Tell me about yourself")
           (mkCompletion [mkChoice (mkMessage (Some "") None)])
           (Script.mkWorld [] []) (mkMessage (Some "") None)
           eq_refl eq_refl eq_refl eq_refl).
Defined.

Lemma unregistered_only_round_goes_to_second_completion_witness :
  Script.chat "q" []
      (Script.mkWorld
         [Script.reply None (Some [Script.calculator_call "c1"]);
          Script.reply (Some "done") None] [])
    = (OK (Some "done"),
       mkState (Script.mkWorld [] [])
         [CompletionCall (Some "model-1") (Script.opening "q") (Some tools);
          CompletionCall (Some "model-1")
            (Script.opening "q"
               ++ [MObj (Script.request [Script.calculator_call "c1"])])
            None]).
Proof.
  refine (unregistered_only_round_goes_to_second_completion
            Script.World Script.ada Script.completions_create
            Script.requests_post Script.json_loads Script.json_dumps
            "q" []
            (Script.start
               (Script.mkWorld
                  [Script.reply None (Some [Script.calculator_call "c1"]);
                   Script.reply (Some "done") None] []))
            (Script.opening "q")
            (mkCompletion
               [mkChoice (Script.request [Script.calculator_call "c1"])])
            (mkCompletion [mkChoice (mkMessage (Some "done") None)])
            (Script.mkWorld [Script.reply (Some "done") None] [])
            (Script.mkWorld [] [])
            (Script.request [Script.calculator_call "c1"])
            (mkMessage (Some "done") None)
            eq_refl eq_refl eq_refl _ eq_refl eq_refl eq_refl).
  discriminate.
Defined.

Lemma exceptions_become_system_error_witness :
  fst (Script.chat "q" [] (Script.mkWorld [] []))
    = OK (Some "System Error: Request timed out.") /\
  fst (Script.chat "q" []
         (Script.mkWorld
            [Script.reply None
               (Some [Script.search_call "c1"; Script.garbled_call "c2"])]
            [Script.acme_results]))
    = OK (Some "System Error: Expecting value: line 1 column 1 (char 0)") /\
  fst (Script.chat "q" []
         (Script.mkWorld
            [Script.reply None (Some [Script.search_call "c1"])]
            [Script.acme_results]))
    = OK (Some "System Error: Request timed out.").
Proof.
  split; [| split].
  - destruct (exceptions_become_system_error
                Script.World Script.ada Script.completions_create
                Script.requests_post Script.json_loads Script.json_dumps
                "q" [] (Script.start (Script.mkWorld [] []))
                (Script.opening "q") eq_refl) as (_ & H & _).
    exact (f_equal fst (H (mkExn "APITimeoutError" "Request timed out.")
                          (Script.mkWorld [] []) eq_refl)).
  - destruct (exceptions_become_system_error
                Script.World Script.ada Script.completions_create
                Script.requests_post Script.json_loads Script.json_dumps
                "q" []
                (Script.start
                   (Script.mkWorld
                      [Script.reply None
                         (Some [Script.search_call "c1";
                                Script.garbled_call "c2"])]
                      [Script.acme_results]))
                (Script.opening "q") eq_refl) as (_ & _ & H & _).
    exact (f_equal fst
             (H (mkCompletion
                   [mkChoice (Script.request [Script.search_call "c1";
                                              Script.garbled_call "c2"])])
                (Script.mkWorld [] [Script.acme_results])
                (Script.request [Script.search_call "c1";
                                 Script.garbled_call "c2"])
                [Script.search_call "c1"] (Script.garbled_call "c2") []
                _ _
                (mkExn "JSONDecodeError"
                   "Expecting value: line 1 column 1 (char 0)")
                eq_refl eq_refl eq_refl eq_refl eq_refl eq_refl)).
  - destruct (exceptions_become_system_error
                Script.World Script.ada Script.completions_create
                Script.requests_post Script.json_loads Script.json_dumps
                "q" []
                (Script.start
                   (Script.mkWorld
                      [Script.reply None (Some [Script.search_call "c1"])]
                      [Script.acme_results]))
                (Script.opening "q") eq_refl) as (_ & _ & _ & H & _).
    refine (f_equal fst
             (H (mkCompletion
                   [mkChoice (Script.request [Script.search_call "c1"])])
                (Script.mkWorld [] [Script.acme_results])
                (Script.request [Script.search_call "c1"])
                _ _
                (mkExn "APITimeoutError" "Request timed out.")
                (Script.mkWorld [] [])
                eq_refl eq_refl _ eq_refl eq_refl)).
    discriminate.
Defined.

Lemma tool_results_follow_registered_requests_witness :
  exists tms evs,
    trace (snd (Script.chat "What do you know about Acme Corp?" []
                  (Script.mkWorld
                     [Script.reply None
                        (Some [Script.search_call "c1";
                               Script.search_call "c2"]);
                      Script.reply (Some "Acme is...") None]
                     [Script.acme_results; Script.three_results])))
      = CompletionCall (Some "model-1")
          (Script.opening "What do you know about Acme Corp?") (Some tools)
        :: evs
        ++ [CompletionCall (Some "model-1")
              (Script.opening "What do you know about Acme Corp?"
                 ++ MObj (Script.request [Script.search_call "c1";
                                          Script.search_call "c2"])
                 :: tms)
              None] /\
    forallb is_search evs = true /\
    length tms = 2 /\
    map tool_call_id tms = [Some "c1"; Some "c2"].
Proof.
  assert (Hne : requested_calls
                  (Script.request [Script.search_call "c1";
                                   Script.search_call "c2"]) <> [])
    by discriminate.
  assert (Hacc : Forall
                   (fun tc => registered tc = true ->
                              accepts_arguments Script.json_loads tc = true)
                   (requested_calls
                      (Script.request [Script.search_call "c1";
                                       Script.search_call "c2"]))).
  { repeat constructor. }
  destruct (tool_results_follow_registered_requests
              Script.World Script.ada Script.completions_create
              Script.requests_post Script.json_loads Script.json_dumps
              "What do you know about Acme Corp?" []
              (Script.start
                 (Script.mkWorld
                    [Script.reply None
                       (Some [Script.search_call "c1";
                              Script.search_call "c2"]);
                     Script.reply (Some "Acme is...") None]
                    [Script.acme_results; Script.three_results]))
              (Script.opening "What do you know about Acme Corp?")
              (mkCompletion
                 [mkChoice (Script.request [Script.search_call "c1";
                                            Script.search_call "c2"])])
              (Script.mkWorld [Script.reply (Some "Acme is...") None]
                 [Script.acme_results; Script.three_results])
              (Script.request [Script.search_call "c1";
                               Script.search_call "c2"])
              eq_refl eq_refl eq_refl Hne Hacc)
    as (tms & evs & Ht & Hs & _ & _ & Hall).
  exists tms, evs.
  destruct (Hall eq_refl) as [Hl Hi].
  split; [exact Ht |].
  split; [exact Hs |].
  split; [exact Hl | exact Hi].
Defined.

Lemma unregistered_request_is_skipped_witness :
  dispatch Script.World Script.ada Script.requests_post Script.json_loads
      Script.json_dumps
      [Script.search_call "c1"; Script.calculator_call "c2";
       Script.search_call "c3"]
      (Script.opening "q")
      (Script.start
         (Script.mkWorld [] [Script.acme_results; Script.three_results]))
    = dispatch Script.World Script.ada Script.requests_post Script.json_loads
        Script.json_dumps
        [Script.search_call "c1"; Script.search_call "c3"]
        (Script.opening "q")
        (Script.start
           (Script.mkWorld [] [Script.acme_results; Script.three_results])).
Proof.
  exact (proj1 (unregistered_request_is_skipped
                  Script.World Script.ada Script.requests_post
                  Script.json_loads Script.json_dumps
                  [Script.search_call "c1"] (Script.calculator_call "c2")
                  [Script.search_call "c3"] (Script.opening "q")
                  (Script.start
                     (Script.mkWorld []
                        [Script.acme_results; Script.three_results]))
                  eq_refl)).
Defined.

(** One request, for a tool that is not registered: the second completion
    is issued over a conversation without any tool message. *)
Lemma unregistered_request_leaves_no_tool_message :
  trace (snd (Script.chat "q" []
                (Script.mkWorld
                   [Script.reply None (Some [Script.calculator_call "c1"]);
                    Script.reply (Some "done") None] [])))
    = [CompletionCall (Some "model-1") (Script.opening "q") (Some tools);
       CompletionCall (Some "model-1")
         (Script.opening "q"
            ++ [MObj (Script.request [Script.calculator_call "c1"])])
         None]
  /\ length (requested_calls (Script.request [Script.calculator_call "c1"]))
     = 1
  /\ filter (has_role "tool")
       (Script.opening "q"
          ++ [MObj (Script.request [Script.calculator_call "c1"])])
     = [].
Proof.
  repeat split.
Qed.

(** Two requests, the first for a tool that is not registered: the only
    tool message of the conversation sent to the second completion answers
    the second request, and no message says that the tool of the first is
    unknown. *)
Lemma unknown_tool_gets_no_result_message :
  Script.chat "q" []
      (Script.mkWorld
         [Script.reply None
            (Some [Script.calculator_call "c1"; Script.search_call "c2"]);
          Script.reply (Some "done") None]
         [Script.acme_results])
    = (OK (Some "done"),
       mkState (Script.mkWorld [] [])
         [CompletionCall (Some "model-1") (Script.opening "q") (Some tools);
          SearchCall "https://google.serper.dev/search"
            [("X-API-KEY", Some "serper");
             ("Content-Type", Some "application/json")]
            (Script.json_dumps (PDict [("q", PStr "Acme Corp")]));
          CompletionCall (Some "model-1")
            (Script.opening "q"
               ++ [MObj (Script.request [Script.calculator_call "c1";
                                         Script.search_call "c2"]);
                   tool_message "c2"
                     (Script.json_dumps
                        (PList [PDict [("title", PStr "Acme")]]))])
            None]).
Proof.
  reflexivity.
Qed.

(** The two end-to-end scenarios of the specification. *)
Example scenario_A :
  fst (Script.chat "Tell me about yourself" []
         (Script.mkWorld [Script.reply (Some "I am Ada...") None] []))
    = OK (Some "I am Ada...").
Proof. reflexivity. Qed.

Example scenario_B :
  fst (Script.chat "What do you know about Acme Corp?" []
         (Script.mkWorld
            [Script.reply None (Some [Script.search_call "c1"]);
             Script.reply (Some "Acme is...") None]
            [Script.acme_results]))
    = OK (Some "Acme is...").
Proof. reflexivity. Qed.

(** * Further properties of the code *)

(** ** Strings, continued *)

Lemma string_app_nil_r (a : string) : (a ++ "")%string = a.
Proof.
  induction a as [| ch a IH]; simpl; [reflexivity | now rewrite IH].
Qed.

Lemma string_length_app (a b : string) :
  String.length (a ++ b) = String.length a + String.length b.
Proof.
  induction a as [| ch a IH]; simpl; [reflexivity | now rewrite IH].
Qed.

Lemma substring_all (a : string) :
  String.substring 0 (String.length a) a = a.
Proof.
  induction a as [| ch a IH]; simpl; [reflexivity | now rewrite IH].
Qed.

Lemma substring_skip (a b : string) (m : nat) :
  String.substring (String.length a) m (a ++ b) = String.substring 0 m b.
Proof.
  induction a as [| ch a IH]; simpl; [reflexivity | exact IH].
Qed.

Lemma substring_split (s : string) :
  forall k, k <= String.length s ->
    s = (String.substring 0 k s
           ++ String.substring k (String.length s - k) s)%string.
Proof.
  induction s as [| ch s IH]; intros k Hk.
  - destruct k; reflexivity.
  - destruct k as [| k].
    + cbn [String.substring append String.length Nat.sub].
      now rewrite substring_all.
    + cbn [String.substring append String.length Nat.sub].
      cbn [String.length] in Hk.
      rewrite <- IH by lia. reflexivity.
Qed.

(** [endswith] is the suffix relation. *)
Lemma endswith_spec (s suffix : string) :
  endswith s suffix = true <-> exists pre : string, s = (pre ++ suffix)%string.
Proof.
  unfold endswith. rewrite andb_true_iff, Nat.leb_le, String.eqb_eq. split.
  - intros [Hl Hs].
    exists (String.substring 0 (String.length s - String.length suffix) s).
    assert (Hk : String.length s - String.length suffix <= String.length s)
      by lia.
    pose proof (substring_split s _ Hk) as E.
    replace (String.length s - (String.length s - String.length suffix))
      with (String.length suffix) in E by lia.
    rewrite Hs in E. exact E.
  - intros [pre ->]. rewrite string_length_app. split; [lia |].
    replace (String.length pre + String.length suffix - String.length suffix)
      with (String.length pre) by lia.
    rewrite substring_skip. apply substring_all.
Qed.

(** ** Knowledge base loader *)

Lemma extract_pages_context (pages : list (result string)) :
  forall context,
    snd (extract_pages pages context)
      = (context ++ snd (extract_pages pages ""))%string.
Proof.
  induction pages as [| [text | e] rest IH]; intros context.
  - cbn. now rewrite string_app_nil_r.
  - cbn [extract_pages]. rewrite IH, (IH ("" ++ text ++ nl)%string).
    cbn [append]. now rewrite !string_app_assoc.
  - cbn. now rewrite string_app_nil_r.
Qed.

Lemma load_file_context (filename : string) (f : File) (context : string) :
  snd (load_file filename f context)
    = (context ++ snd (load_file filename f ""))%string.
Proof.
  unfold load_file.
  destruct (endswith filename ".pdf").
  - destruct (pdf_pages f) as [pages | e].
    + apply extract_pages_context.
    + cbn. now rewrite string_app_nil_r.
  - destruct (endswith filename ".txt").
    + destruct (read_text f) as [text | e]; cbn;
        [reflexivity | now rewrite string_app_nil_r].
    + cbn. now rewrite string_app_nil_r.
Qed.

Lemma load_files_app (a : list (string * File)) :
  forall b context,
    load_files (a ++ b) context = load_files b (load_files a context).
Proof.
  induction a as [| [filename f] a IH]; intros b context.
  - reflexivity.
  - cbn [app load_files]. apply IH.
Qed.

Lemma load_files_context (files : list (string * File)) :
  forall context,
    load_files files context
      = (context ++
         fold_right append ""
           (map (fun nf => snd (load_file (fst nf) (snd nf) "")) files))%string.
Proof.
  induction files as [| [filename f] files IH]; intros context.
  - cbn. now rewrite string_app_nil_r.
  - cbn [load_files map fold_right fst snd].
    rewrite IH, load_file_context. now rewrite string_app_assoc.
Qed.

(** X1.  The context [load_context] returns for a folder it can list is the
    concatenation, in listing order, of what each entry contributes when
    loaded on its own into an empty context: an entry that fails or is
    ignored changes nothing of what the other entries contribute. *)
Theorem load_context_concatenates_contributions :
  forall files : list (string * File),
    load_context (Present (OK files))
      = OK (fold_right append ""
              (map (fun nf => snd (load_file (fst nf) (snd nf) "")) files)).
Proof.
  intros files. cbn. now rewrite load_files_context.
Qed.

(** X3.  An entry whose name ends neither in [.pdf] nor in [.txt] is not
    read: whatever it holds, the context is the one of the folder without
    the entry. *)
Theorem other_extensions_are_ignored :
  forall (pre post : list (string * File)) (filename : string) (f : File),
    endswith filename ".pdf" = false ->
    endswith filename ".txt" = false ->
    load_context (Present (OK (pre ++ (filename, f) :: post)))
      = load_context (Present (OK (pre ++ post))).
Proof.
  intros pre post filename f Hpdf Htxt. cbn. f_equal.
  rewrite !load_files_app. cbn [load_files].
  unfold load_file. now rewrite Hpdf, Htxt.
Qed.

(** X4.  An entry that cannot be loaded at all (a [.pdf] name that
    [PdfReader] rejects, a [.txt] name that cannot be opened or decoded) is
    passed over: the context is the one of the folder without the entry, so
    the entries after it are still loaded. *)
Theorem unreadable_file_is_passed_over :
  forall (pre post : list (string * File)) (filename : string) (f : File)
         (e : exn),
    (endswith filename ".pdf" = true /\ pdf_pages f = Raise e) \/
    (endswith filename ".pdf" = false /\ endswith filename ".txt" = true
       /\ read_text f = Raise e) ->
    load_context (Present (OK (pre ++ (filename, f) :: post)))
      = load_context (Present (OK (pre ++ post))).
Proof.
  intros pre post filename f e H. cbn. f_equal.
  rewrite !load_files_app. cbn [load_files]. unfold load_file.
  destruct H as [[Hpdf Hr] | (Hpdf & Htxt & Hr)].
  - now rewrite Hpdf, Hr.
  - now rewrite Hpdf, Htxt, Hr.
Qed.

Lemma extract_pages_texts (texts : list string) :
  forall (tail : list (result string)) (context : string),
    tail = [] \/ (exists e rest, tail = Raise e :: rest) ->
    snd (extract_pages (map OK texts ++ tail) context)
      = (context
           ++ fold_right (fun text acc => text ++ nl ++ acc) "" texts)%string.
Proof.
  induction texts as [| text texts IH]; intros tail context H.
  - cbn [map app fold_right]. rewrite string_app_nil_r.
    destruct H as [-> | (e & rest & ->)]; reflexivity.
  - cbn [map app fold_right extract_pages]. rewrite (IH _ _ H).
    now rewrite !string_app_assoc.
Qed.

(** X5.  A PDF contributes the text of its pages in order, a newline after
    each.  When a page fails, the text of the pages before it stays in the
    context (it is not taken back) and the pages after it are not read. *)
Theorem pdf_keeps_pages_before_failure :
  forall (filename : string) (f : File) (texts : list string)
         (tail : list (result string)) (context : string),
    endswith filename ".pdf" = true ->
    pdf_pages f = OK (map OK texts ++ tail) ->
    tail = [] \/ (exists e rest, tail = Raise e :: rest) ->
    snd (load_file filename f context)
      = (context
           ++ fold_right (fun text acc => text ++ nl ++ acc) "" texts)%string.
Proof.
  intros filename f texts tail context Hpdf Hpages Htail.
  unfold load_file. rewrite Hpdf, Hpages.
  now apply extract_pages_texts.
Qed.

(** X6.  For a folder of text files that can all be read, the context is
    their texts put end to end in listing order, with nothing between. *)
Theorem text_files_are_concatenated :
  forall (files : list (string * File)) (texts : list string),
    Forall2 (fun nf text =>
               endswith (fst nf) ".pdf" = false /\
               endswith (fst nf) ".txt" = true /\
               read_text (snd nf) = OK text) files texts ->
    load_context (Present (OK files)) = OK (fold_right append "" texts).
Proof.
  intros files texts H. cbn. f_equal. rewrite load_files_context.
  cbn [append]. induction H as [| [filename f] text files texts Hf _ IH].
  - reflexivity.
  - cbn [map fold_right fst snd] in *. destruct Hf as (Hpdf & Htxt & Hr).
    rewrite IH. unfold load_file. now rewrite Hpdf, Htxt, Hr.
Qed.

(** ** History normalization, continued *)

Lemma normalize_history_concat (h1 : list pyval) :
  forall h2 messages,
    normalize_history (h1 ++ h2) messages
      = match normalize_history h1 messages with
        | OK messages1 => normalize_history h2 messages1
        | Raise e => Raise e
        end.
Proof.
  induction h1 as [| entry rest IH]; intros h2 messages; [reflexivity |].
  cbn [app normalize_history].
  destruct (is_list_or_tuple entry).
  - destruct (py_getitem entry 0) as [e0 | e]; [| reflexivity].
    destruct (1 <? py_len entry)%nat; [| apply IH].
    destruct (py_getitem entry 1) as [e1 | e]; [| reflexivity].
    destruct (truthy e1); apply IH.
  - destruct entry; apply IH.
Qed.

Lemma entry_messages_length (entry : pyval) :
  length (entry_messages entry) <= 2.
Proof.
  destruct entry as [ | b | n | x | str | l | l | d ]; cbn; try lia;
    destruct l as [| u [| a more]]; cbn; try lia;
    destruct (truthy a); cbn; lia.
Qed.

(** X7.  Normalization looks only at the shape of an entry and at its first
    two elements: an entry that is neither a list, a tuple nor a dict is
    passed over; the elements of a list after the second are ignored; and a
    non-empty tuple is treated as the list of the same elements. *)
Theorem normalization_reads_shape_and_first_two :
  forall (cfg : Config) (message : string) (h1 h2 : list pyval),
    (forall entry,
        is_list_or_tuple entry = false ->
        is_dict entry = false ->
        build_messages cfg message (h1 ++ entry :: h2)
          = build_messages cfg message (h1 ++ h2)) /\
    (forall u a more,
        build_messages cfg message (h1 ++ PList (u :: a :: more) :: h2)
          = build_messages cfg message (h1 ++ PList [u; a] :: h2)) /\
    (forall u rest,
        build_messages cfg message (h1 ++ PTuple (u :: rest) :: h2)
          = build_messages cfg message (h1 ++ PList (u :: rest) :: h2)).
Proof.
  intros cfg message h1 h2. unfold build_messages.
  split; [| split].
  - intros entry Hl Hd. rewrite !normalize_history_concat.
    destruct (normalize_history h1 _) as [m | e]; [| reflexivity].
    cbn [normalize_history]. rewrite Hl.
    destruct entry; try reflexivity; discriminate.
  - intros u a more. rewrite !normalize_history_concat.
    destruct (normalize_history h1 _) as [m | e]; reflexivity.
  - intros u rest. rewrite !normalize_history_concat.
    destruct (normalize_history h1 _) as [m | e]; [| reflexivity].
    destruct rest; reflexivity.
Qed.

(** X8.  A normalized conversation ends with the new user message, and it
    has at least two messages and at most two per history entry plus
    two. *)
Theorem conversation_ends_with_new_message :
  forall (cfg : Config) (message : string) (history : list pyval)
         (msgs : list Message),
    build_messages cfg message history = OK msgs ->
    last msgs (system_message "") = user_message (PStr message) /\
    2 <= length msgs <= 2 * length history + 2.
Proof.
  intros cfg message history msgs H.
  destruct (build_messages_inv cfg message history msgs H) as [_ ->].
  split.
  - rewrite app_comm_cons. apply last_last.
  - cbn [length]. rewrite length_app. cbn [length].
    assert (Hl : length (flat_map entry_messages history)
                 <= 2 * length history).
    { clear H. induction history as [| entry rest IH]; [cbn; lia |].
      cbn [flat_map length]. rewrite length_app.
      pose proof (entry_messages_length entry). lia. }
    lia.
Qed.

(** X9.  A history of structured messages is passed through as it is: the
    conversation is the system message, the dicts of the history in their
    order, and the new user message. *)
Theorem structured_history_passes_through :
  forall (cfg : Config) (message : string)
         (dicts : list (list (string * pyval))),
    build_messages cfg message (map PDict dicts)
      = OK (system_message (system_prompt cfg)
              :: map MDict dicts ++ [user_message (PStr message)]).
Proof.
  intros cfg message dicts. unfold build_messages.
  rewrite normalize_history_app.
  - cbn [app]. do 3 f_equal.
    induction dicts as [| d dicts IH]; [reflexivity |].
    cbn [map flat_map entry_messages app]. now rewrite IH.
  - induction dicts as [| d dicts IH]; [reflexivity | exact IH].
Qed.

(** X10.  A history of (user, assistant) pairs of texts whose assistant
    texts are not empty gives, between the system message and the new user
    message, a user message and an assistant message per pair, in order. *)
Theorem pair_history_alternates :
  forall (cfg : Config) (message : string) (pairs : list (string * string)),
    Forall (fun p => snd p <> "") pairs ->
    build_messages cfg message
        (map (fun p => PList [PStr (fst p); PStr (snd p)]) pairs)
      = OK (system_message (system_prompt cfg)
              :: flat_map (fun p => [user_message (PStr (fst p));
                                     assistant_message (PStr (snd p))]) pairs
              ++ [user_message (PStr message)]).
Proof.
  intros cfg message pairs H. unfold build_messages.
  rewrite normalize_history_app.
  - cbn [app]. do 3 f_equal.
    induction H as [| [u a] pairs Ha _ IH]; [reflexivity |].
    cbn [map flat_map entry_messages fst snd app truthy] in *.
    apply String.eqb_neq in Ha. rewrite Ha, IH. reflexivity.
  - clear H. induction pairs as [| p pairs IH]; [reflexivity | exact IH].
Qed.

(** ** The turn, continued *)

Section MoreTurnProperties.

Variable World : Type.
Variable cfg : Config.
Variable completions_create :
  option string -> list Message -> option pyval -> World ->
  result ChatCompletion * World.
Variable requests_post :
  string -> list (string * option string) -> string -> World ->
  result HttpResponse * World.
Variable json_loads : string -> result pyval.
Variable json_dumps : pyval -> string.

Local Abbreviation search := (google_search World cfg requests_post json_dumps).
Local Abbreviation search_kwargs :=
  (google_search_kwargs World cfg requests_post json_dumps).
Local Abbreviation run_dispatch :=
  (dispatch World cfg requests_post json_loads json_dumps).
Local Abbreviation run_chat :=
  (chat World cfg completions_create requests_post json_loads json_dumps).
Local Abbreviation accepted := (accepts_arguments json_loads).
Local Abbreviation query_of := (requested_query json_loads).

Local Abbreviation post query w :=
  (requests_post "https://google.serper.dev/search"
     [("X-API-KEY", SERPER_API_KEY cfg);
      ("Content-Type", Some "application/json")]
     (json_dumps (PDict [("q", query)])) w).

Local Abbreviation posted query :=
  (SearchCall "https://google.serper.dev/search"
     [("X-API-KEY", SERPER_API_KEY cfg);
      ("Content-Type", Some "application/json")]
     (json_dumps (PDict [("q", query)]))).

Local Abbreviation first_call msgs :=
  (CompletionCall (MODEL_NAME cfg) msgs (Some tools)).

Local Abbreviation second_call msgs :=
  (CompletionCall (MODEL_NAME cfg) msgs None).

(** *** Search adapter *)

(** X11.  [google_search] makes exactly one request, whatever comes of it:
    a POST to the search URL with the API key header and the query as the
    JSON body; the world it leaves is the one the request left, and it
    returns a text. *)
Theorem google_search_single_request :
  forall (query : pyval) (s : State World),
    exists res,
      search query s
        = (OK res,
           mkState (snd (post query (world s))) (trace s ++ [posted query])).
Proof.
  intros query s. rewrite (google_search_run World cfg). eauto.
Qed.

(** X12.  The status of the response is not looked at: whatever it is, a
    body that is a JSON object without the key [organic] gives the
    serialization of the empty list, not an error text. *)
Theorem missing_organic_gives_empty_list :
  forall (query : pyval) (s : State World) (status : Z)
         (d : list (string * pyval)) (w : World),
    post query (world s) = (OK (mkHttp status (OK (PDict d))), w) ->
    dict_get d "organic" = None ->
    search query s
      = (OK (json_dumps (PList [])), mkState w (trace s ++ [posted query])).
Proof.
  intros query s status d w H Ho.
  rewrite (google_search_run World cfg), H. cbn. now rewrite Ho.
Qed.

(** X13.  A body that parses but has the wrong shape gives an error text:
    a body that is not a JSON object has no [get], and an [organic] that is
    not an array or a string (null, a number, a boolean, an object) cannot
    be sliced. *)
Theorem malformed_payload_gives_error_text :
  forall (query : pyval) (s : State World) (response : HttpResponse)
         (body : pyval) (w : World),
    post query (world s) = (OK response, w) ->
    json response = OK body ->
    (is_dict body = false ->
     search query s
       = (OK ("Search Error: '" ++ type_name body
                ++ "' object has no attribute 'get'")%string,
          mkState w (trace s ++ [posted query]))) /\
    (forall d organic,
        body = PDict d ->
        dict_get d "organic" = Some organic ->
        match organic with
        | PList _ | PTuple _ | PStr _ => False
        | _ => True
        end ->
        exists text,
          search query s
            = (OK ("Search Error: " ++ text)%string,
               mkState w (trace s ++ [posted query]))).
Proof.
  intros query s response body w H Hj.
  rewrite (google_search_run World cfg), H. cbn [fst snd]. rewrite Hj.
  split.
  - intros Hd. destruct body; try reflexivity; discriminate.
  - intros d organic -> Ho Hs. cbn. rewrite Ho.
    destruct organic; cbn; try contradiction; eexists; reflexivity.
Qed.

(** *** Tool calls *)

Lemma search_kwargs_rejected (tool_call : ToolCall) (args : pyval)
    (s : State World) :
  json_loads (arguments (function tool_call)) = OK args ->
  accepted tool_call = false ->
  exists e, search_kwargs args s = (Raise e, s)
            /\ exn_class e = "TypeError".
Proof.
  unfold accepts_arguments, google_search_kwargs. intros -> H.
  destruct args as [ | b | n | x | str | l | l | d ];
    try (eexists; split; reflexivity).
  destruct (unexpected_keyword d) as [k |];
    [eexists; split; reflexivity |].
  destruct (dict_get d "query") as [q |];
    [discriminate | eexists; split; reflexivity].
Qed.

Lemma search_kwargs_query (tool_call : ToolCall) (s : State World) :
  accepted tool_call = true ->
  exists args q,
    json_loads (arguments (function tool_call)) = OK args /\
    query_of tool_call = Some q /\
    search_kwargs args s = search q s.
Proof.
  unfold accepts_arguments, requested_query. intros H.
  destruct (json_loads (arguments (function tool_call)))
    as [[ | b | n | x | str | l | l | d ] | e]; try discriminate.
  destruct (unexpected_keyword d) as [k |] eqn:Hk; [discriminate |].
  destruct (dict_get d "query") as [q |] eqn:Hq; [| discriminate].
  exists (PDict d), q. repeat split.
  unfold google_search_kwargs. now rewrite Hk, Hq.
Qed.

(** X14.  Arguments that decode but do not fit the one parameter of
    [google_search] (a value that is not an object, an object without
    [query], an object with another key) end the turn: the reply is a
    "System Error" text, the state is the one left by the calls dispatched
    before, so no search request is made for the call and no second
    completion is issued. *)
Theorem unfit_arguments_end_the_turn :
  forall (message : string) (history : list pyval) (s : State World)
         (msgs : list Message) (response : ChatCompletion) (w1 : World)
         (msg : ChatCompletionMessage) (pre : list ToolCall)
         (tool_call : ToolCall) (post : list ToolCall)
         (msgs1 : list Message) (s1 : State World) (args : pyval),
    build_messages cfg message history = OK msgs ->
    completions_create (MODEL_NAME cfg) msgs (Some tools) (world s)
      = (OK response, w1) ->
    first_message response = OK msg ->
    requested_calls msg = pre ++ tool_call :: post ->
    run_dispatch pre (msgs ++ [MObj msg])
        (mkState w1 (trace s ++ [first_call msgs]))
      = (OK msgs1, s1) ->
    registered tool_call = true ->
    json_loads (arguments (function tool_call)) = OK args ->
    accepted tool_call = false ->
    exists text,
      run_chat message history s
        = (OK (Some ("System Error: " ++ text)%string), s1).
Proof.
  intros message history s msgs response w1 msg pre tool_call post msgs1 s1
    args Hb Hc Hm Hr Hd R Hj Ha.
  destruct (search_kwargs_rejected tool_call args s1 Hj Ha) as (e & He & _).
  exists (exn_text e).
  rewrite (chat_after_normalization World cfg _ _ _ _ _ _ _ _ Hb).
  rewrite turn_first_phase, Hc, Hm.
  destruct (requested_calls msg) as [| c calls] eqn:E.
  { now apply app_cons_not_nil in Hr. }
  rewrite Hr, dispatch_app, Hd. cbn [dispatch]. rewrite R.
  unfold bind at 1, lift. rewrite Hj.
  unfold bind at 1. rewrite He. reflexivity.
Qed.

(** X15.  A search that fails does not end the turn: the tool message for
    the call carries the error text, and the remaining calls are dispatched
    from the world the failed request left. *)
Theorem failed_search_becomes_tool_result :
  forall (tool_call : ToolCall) (rest : list ToolCall)
         (messages : list Message) (s : State World) (q : pyval)
         (e : exn) (w : World),
    registered tool_call = true ->
    accepted tool_call = true ->
    query_of tool_call = Some q ->
    post q (world s) = (Raise e, w) ->
    run_dispatch (tool_call :: rest) messages s
      = run_dispatch rest
          (messages ++ [tool_message (id tool_call)
                          ("Search Error: " ++ exn_text e)%string])
          (mkState w (trace s ++ [posted q])).
Proof.
  intros tool_call rest messages s q e w R Ha Hq Hp.
  destruct (search_kwargs_query tool_call s Ha) as (args & q' & Hj & Hq' & Hs).
  rewrite Hq in Hq'. injection Hq' as <-.
  cbn [dispatch]. rewrite R. unfold bind at 1, lift. rewrite Hj.
  unfold bind at 1. rewrite Hs, (google_search_run World cfg), Hp.
  reflexivity.
Qed.

(** X16.  When every request that names [google_search] has fitting
    arguments, the dispatch returns, and the requests it made to the search
    provider are exactly one per such request, in the order of the
    requests, each carrying the query of its request. *)
Theorem one_search_per_registered_request :
  forall (calls : list ToolCall),
    Forall (fun tc => registered tc = true -> accepted tc = true) calls ->
    forall (messages : list Message) (s : State World),
      exists qs messages' s',
        run_dispatch calls messages s = (OK messages', s') /\
        Forall2 (fun tc q => query_of tc = Some q)
                (filter registered calls) qs /\
        trace s' = trace s ++ map (fun q => posted q) qs.
Proof.
  induction 1 as [| tool_call rest Ha _ IH]; intros messages s.
  - exists [], messages, s. cbn. rewrite app_nil_r. repeat split. constructor.
  - cbn [dispatch filter]. destruct (registered tool_call) eqn:R; [| apply IH].
    destruct (search_kwargs_query tool_call s (Ha eq_refl))
      as (args & q & Hj & Hq & Hs).
    unfold bind at 1, lift. rewrite Hj.
    unfold bind at 1. rewrite Hs, (google_search_run World cfg).
    match goal with
    | |- context [run_dispatch rest ?m ?st] =>
        destruct (IH m st) as (qs & messages' & s' & Hd & Hf & Ht)
    end.
    exists (q :: qs), messages', s'.
    split; [exact Hd |]. split; [constructor; assumption |].
    rewrite Ht. cbn [trace map]. now rewrite <- app_assoc.
Qed.

(** *** The reply *)

(** X17.  After a round of tool calls the reply is the content of the
    second completion's message, whatever else that message holds: tool
    calls it requests are not dispatched, and nothing follows the second
    completion call. *)
Theorem second_completion_content_is_the_reply :
  forall (message : string) (history : list pyval) (s : State World)
         (msgs : list Message) (response : ChatCompletion) (w1 : World)
         (msg : ChatCompletionMessage) (msgs2 : list Message)
         (s2 : State World) (final_res : ChatCompletion) (w3 : World)
         (final_msg : ChatCompletionMessage),
    build_messages cfg message history = OK msgs ->
    completions_create (MODEL_NAME cfg) msgs (Some tools) (world s)
      = (OK response, w1) ->
    first_message response = OK msg ->
    requested_calls msg <> [] ->
    run_dispatch (requested_calls msg) (msgs ++ [MObj msg])
        (mkState w1 (trace s ++ [first_call msgs]))
      = (OK msgs2, s2) ->
    completions_create (MODEL_NAME cfg) msgs2 None (world s2)
      = (OK final_res, w3) ->
    first_message final_res = OK final_msg ->
    run_chat message history s
      = (OK (content final_msg),
         mkState w3 (trace s2 ++ [second_call msgs2])).
Proof.
  intros message history s msgs response w1 msg msgs2 s2 final_res w3
    final_msg Hb Hc Hm Hne Hd Hc2 Hm2.
  rewrite (chat_after_normalization World cfg _ _ _ _ _ _ _ _ Hb).
  rewrite turn_first_phase, Hc, Hm.
  destruct (requested_calls msg) as [| c calls] eqn:E; [now elim Hne |].
  rewrite Hd, Hc2, Hm2. reflexivity.
Qed.

(** X18.  A completion that comes back without any choice gives the reply
    "System Error: list index out of range": after the first call, and
    after the second call when there was a round of tool calls. *)
Theorem completion_without_choices_is_a_system_error :
  forall (message : string) (history : list pyval) (s : State World)
         (msgs : list Message),
    build_messages cfg message history = OK msgs ->
    (forall response w1,
        completions_create (MODEL_NAME cfg) msgs (Some tools) (world s)
          = (OK response, w1) ->
        choices response = [] ->
        run_chat message history s
          = (OK (Some "System Error: list index out of range"),
             mkState w1 (trace s ++ [first_call msgs]))) /\
    (forall response w1 msg msgs2 s2 final_res w3,
        completions_create (MODEL_NAME cfg) msgs (Some tools) (world s)
          = (OK response, w1) ->
        first_message response = OK msg ->
        requested_calls msg <> [] ->
        run_dispatch (requested_calls msg) (msgs ++ [MObj msg])
            (mkState w1 (trace s ++ [first_call msgs]))
          = (OK msgs2, s2) ->
        completions_create (MODEL_NAME cfg) msgs2 None (world s2)
          = (OK final_res, w3) ->
        choices final_res = [] ->
        run_chat message history s
          = (OK (Some "System Error: list index out of range"),
             mkState w3 (trace s2 ++ [second_call msgs2]))).
Proof.
  intros message history s msgs Hb.
  rewrite (chat_after_normalization World cfg _ _ _ _ _ _ _ _ Hb).
  rewrite turn_first_phase. split.
  - intros response w1 Hc He. rewrite Hc. unfold first_message.
    rewrite He. reflexivity.
  - intros response w1 msg msgs2 s2 final_res w3 Hc Hm Hne Hd Hc2 He.
    rewrite Hc, Hm.
    destruct (requested_calls msg) as [| c calls] eqn:E; [now elim Hne |].
    rewrite Hd, Hc2. unfold first_message at 1. rewrite He. reflexivity.
Qed.

(** X19.  [chat] raises exactly when the history has an entry that is an
    empty list or tuple, at any place: it then raises an [IndexError]
    before any call is made; on every other history it returns a reply. *)
Theorem chat_raises_exactly_on_empty_sequence_entries :
  forall (message : string) (history : list pyval) (s : State World),
    (existsb empty_sequence history = true ->
     exists e,
       run_chat message history s = (Raise e, s)
       /\ exn_class e = "IndexError") /\
    (existsb empty_sequence history = false ->
     exists reply s', run_chat message history s = (OK reply, s')).
Proof.
  intros message history s. split; intros H.
  - destruct (normalize_history_raises history
                [system_message (system_prompt cfg)] H) as (e & He & Hc).
    exists e. split; [| exact Hc].
    unfold chat, bind, lift, build_messages. rewrite He. reflexivity.
  - destruct (build_messages_total cfg message history H) as [msgs Hb].
    rewrite (chat_after_normalization World cfg _ _ _ _ _ _ _ _ Hb).
    destruct (turn World cfg completions_create requests_post json_loads
                json_dumps msgs s) as [[reply | e] s']; eauto.
Qed.

End MoreTurnProperties.

(** ** Tool registry and prompt *)

(** X20.  The dispatcher and the tool specs agree: a request is dispatched
    exactly when its name is one the specs sent to the backend advertise,
    and a decoded arguments object has no unexpected keyword exactly when
    all its keys are parameters the specs declare. *)
Theorem dispatcher_agrees_with_tool_specs :
  (forall tool_call : ToolCall,
      registered tool_call = true <->
      In (name (function tool_call)) (advertised_names tools)) /\
  (forall d : list (string * pyval),
      unexpected_keyword d = None <->
      Forall (fun kv =>
                In (fst kv)
                   (match tools with
                    | PList specs => flat_map declared_parameters specs
                    | _ => []
                    end)) d).
Proof.
  split.
  - intros tool_call. unfold registered. cbn. rewrite String.eqb_eq.
    split; [intros ->; now left | intros [H | []]; now symmetry].
  - intros d. cbn. induction d as [| [k v] d IH].
    + split; [constructor | reflexivity].
    + cbn [unexpected_keyword]. destruct (String.eqb_spec k "query") as [-> | Hk].
      * rewrite IH. split; intros H.
        -- constructor; [now left | exact H].
        -- now inversion H.
      * split; [discriminate |]. intros H. inversion H as [| ? ? Hin _].
        cbn in Hin. destruct Hin as [E | []]. now elim Hk.
Qed.

(** X21.  An identity variable that is not set in the environment is
    rendered as the text None: with neither the name nor the role set, the
    prompt reads "You are acting as None, a None." *)
Theorem unset_identity_renders_as_None :
  forall (cfg : Config),
    USER_NAME cfg = None ->
    USER_ROLE cfg = None ->
    substring_of "You are acting as None, a None." (system_prompt cfg).
Proof.
  intros cfg Hn Hr. unfold system_prompt. rewrite Hn, Hr. cbn [fmt].
  exists (nl ++ "    ")%string. eexists. reflexivity.
Qed.

(** * Concrete runs, continued *)

Lemma other_extensions_are_ignored_witness :
  load_context
      (Present (OK ([("notes.txt", Script.notes_txt)]
                      ++ ("photo.png", Script.image_png)
                      :: [("cv.pdf", Script.cv_pdf)])))
    = load_context
        (Present (OK ([("notes.txt", Script.notes_txt)]
                        ++ [("cv.pdf", Script.cv_pdf)]))).
Proof.
  exact (other_extensions_are_ignored
           [("notes.txt", Script.notes_txt)] [("cv.pdf", Script.cv_pdf)]
           "photo.png" Script.image_png eq_refl eq_refl).
Defined.

Lemma unreadable_file_is_passed_over_witness :
  load_context
      (Present (OK ([("notes.txt", Script.notes_txt)]
                      ++ ("scan.pdf", Script.broken_pdf)
                      :: [("cv.pdf", Script.cv_pdf)])))
    = load_context
        (Present (OK ([("notes.txt", Script.notes_txt)]
                        ++ [("cv.pdf", Script.cv_pdf)]))).
Proof.
  exact (unreadable_file_is_passed_over
           [("notes.txt", Script.notes_txt)] [("cv.pdf", Script.cv_pdf)]
           "scan.pdf" Script.broken_pdf
           (mkExn "PdfReadError" "EOF marker not found")
           (or_introl (conj eq_refl eq_refl))).
Defined.

Lemma pdf_keeps_pages_before_failure_witness :
  snd (load_file "torn.pdf" Script.torn_pdf "Notes on Ada.")
    = ("Notes on Ada." ++ "Intro" ++ nl)%string.
Proof.
  exact (pdf_keeps_pages_before_failure
           "torn.pdf" Script.torn_pdf ["Intro"]
           [Raise (mkExn "KeyError" "'/Contents'"); OK "Appendix"]
           "Notes on Ada." eq_refl eq_refl
           (or_intror
              (ex_intro _ (mkExn "KeyError" "'/Contents'")
                 (ex_intro _ [OK "Appendix"] eq_refl)))).
Defined.

Lemma text_files_are_concatenated_witness :
  load_context
      (Present (OK [("notes.txt", Script.notes_txt);
                    ("skills.txt", Script.skills_txt)]))
    = OK "Notes on Ada. Skills: proofs.".
Proof.
  apply (text_files_are_concatenated
           [("notes.txt", Script.notes_txt); ("skills.txt", Script.skills_txt)]
           ["Notes on Ada."; " Skills: proofs."]).
  repeat constructor.
Defined.

Lemma normalization_reads_shape_and_first_two_witness :
  build_messages Script.ada "next"
      ([PList [PStr "hi"; PStr "hello"]] ++ PInt 3 :: [])
    = build_messages Script.ada "next" ([PList [PStr "hi"; PStr "hello"]] ++ []).
Proof.
  exact (proj1 (normalization_reads_shape_and_first_two
                  Script.ada "next" [PList [PStr "hi"; PStr "hello"]] [])
               (PInt 3) eq_refl eq_refl).
Defined.

Lemma conversation_ends_with_new_message_witness :
  last Script.conversation1 (system_message "") = user_message (PStr "next") /\
  2 <= length Script.conversation1 <= 2 * length Script.history1 + 2.
Proof.
  exact (conversation_ends_with_new_message
           Script.ada "next" Script.history1 Script.conversation1 eq_refl).
Defined.

Lemma pair_history_alternates_witness :
  build_messages Script.ada "next"
      (map (fun p => PList [PStr (fst p); PStr (snd p)])
           [("hi", "hello"); ("", "pardon?")])
    = OK (system_message (system_prompt Script.ada)
            :: flat_map (fun p => [user_message (PStr (fst p));
                                   assistant_message (PStr (snd p))])
                 [("hi", "hello"); ("", "pardon?")]
            ++ [user_message (PStr "next")]).
Proof.
  apply (pair_history_alternates Script.ada "next"
           [("hi", "hello"); ("", "pardon?")]).
  repeat constructor; discriminate.
Defined.

Lemma unset_identity_renders_as_None_witness :
  substring_of "You are acting as None, a None."
    (system_prompt Script.anonymous).
Proof.
  exact (unset_identity_renders_as_None Script.anonymous eq_refl eq_refl).
Defined.

Lemma missing_organic_gives_empty_list_witness :
  google_search Script.World Script.ada Script.requests_post Script.json_dumps
      (PStr "Acme Corp")
      (Script.start (Script.mkWorld [] [Script.unauthorized]))
    = (OK (Script.json_dumps (PList [])),
       mkState (Script.mkWorld [] [])
         [SearchCall "https://google.serper.dev/search"
            [("X-API-KEY", Some "serper");
             ("Content-Type", Some "application/json")]
            (Script.json_dumps (PDict [("q", PStr "Acme Corp")]))]).
Proof.
  exact (missing_organic_gives_empty_list
           Script.World Script.ada Script.requests_post Script.json_dumps
           (PStr "Acme Corp")
           (Script.start (Script.mkWorld [] [Script.unauthorized]))
           401 [("message", PStr "Unauthorized.")] (Script.mkWorld [] [])
           eq_refl eq_refl).
Defined.

Lemma malformed_payload_gives_error_text_witness :
  google_search Script.World Script.ada Script.requests_post Script.json_dumps
      (PStr "Acme Corp")
      (Script.start (Script.mkWorld [] [Script.array_body]))
    = (OK "Search Error: 'list' object has no attribute 'get'",
       mkState (Script.mkWorld [] [])
         [SearchCall "https://google.serper.dev/search"
            [("X-API-KEY", Some "serper");
             ("Content-Type", Some "application/json")]
            (Script.json_dumps (PDict [("q", PStr "Acme Corp")]))]).
Proof.
  exact (proj1 (malformed_payload_gives_error_text
                  Script.World Script.ada Script.requests_post
                  Script.json_dumps (PStr "Acme Corp")
                  (Script.start (Script.mkWorld [] [Script.array_body]))
                  (mkHttp 200 (OK (PList []))) (PList [])
                  (Script.mkWorld [] []) eq_refl eq_refl)
               eq_refl).
Defined.

Lemma unfit_arguments_end_the_turn_witness :
  exists text,
    chat Script.World Script.ada Script.completions_create
        Script.requests_post Script.json_loads_more Script.json_dumps
        "q" []
        (Script.start
           (Script.mkWorld
              [Script.reply None (Some [Script.wrong_key_call "c1"]);
               Script.reply (Some "unreached") None]
              [Script.acme_results]))
      = (OK (Some ("System Error: " ++ text)%string),
         mkState
           (Script.mkWorld [Script.reply (Some "unreached") None]
              [Script.acme_results])
           [CompletionCall (Some "model-1") (Script.opening "q")
              (Some tools)]).
Proof.
  exact (unfit_arguments_end_the_turn
           Script.World Script.ada Script.completions_create
           Script.requests_post Script.json_loads_more Script.json_dumps
           "q" []
           (Script.start
              (Script.mkWorld
                 [Script.reply None (Some [Script.wrong_key_call "c1"]);
                  Script.reply (Some "unreached") None]
                 [Script.acme_results]))
           (Script.opening "q")
           (mkCompletion
              [mkChoice (Script.request [Script.wrong_key_call "c1"])])
           (Script.mkWorld [Script.reply (Some "unreached") None]
              [Script.acme_results])
           (Script.request [Script.wrong_key_call "c1"])
           [] (Script.wrong_key_call "c1") []
           _ _ (PDict [("q", PStr "Acme Corp")])
           eq_refl eq_refl eq_refl eq_refl eq_refl eq_refl eq_refl eq_refl).
Defined.

Lemma failed_search_becomes_tool_result_witness :
  dispatch Script.World Script.ada Script.requests_post Script.json_loads
      Script.json_dumps
      [Script.search_call "c1"; Script.search_call "c2"]
      (Script.opening "q") (Script.start (Script.mkWorld [] []))
    = dispatch Script.World Script.ada Script.requests_post Script.json_loads
        Script.json_dumps
        [Script.search_call "c2"]
        (Script.opening "q"
           ++ [tool_message "c1" "Search Error: Max retries exceeded"])
        (mkState (Script.mkWorld [] [])
           [SearchCall "https://google.serper.dev/search"
              [("X-API-KEY", Some "serper");
               ("Content-Type", Some "application/json")]
              (Script.json_dumps (PDict [("q", PStr "Acme Corp")]))]).
Proof.
  exact (failed_search_becomes_tool_result
           Script.World Script.ada Script.requests_post Script.json_loads
           Script.json_dumps
           (Script.search_call "c1") [Script.search_call "c2"]
           (Script.opening "q") (Script.start (Script.mkWorld [] []))
           (PStr "Acme Corp")
           (mkExn "ConnectionError" "Max retries exceeded")
           (Script.mkWorld [] [])
           eq_refl eq_refl eq_refl eq_refl).
Defined.

Lemma one_search_per_registered_request_witness :
  exists qs messages' s',
    dispatch Script.World Script.ada Script.requests_post Script.json_loads
        Script.json_dumps
        [Script.search_call "c1"; Script.calculator_call "c2";
         Script.search_call "c3"]
        (Script.opening "q")
        (Script.start
           (Script.mkWorld [] [Script.acme_results; Script.three_results]))
      = (OK messages', s') /\
    length qs = 2 /\
    trace s'
      = map (fun q =>
               SearchCall "https://google.serper.dev/search"
                 [("X-API-KEY", Some "serper");
                  ("Content-Type", Some "application/json")]
                 (Script.json_dumps (PDict [("q", q)]))) qs.
Proof.
  assert (Hacc : Forall
                   (fun tc => registered tc = true ->
                              accepts_arguments Script.json_loads tc = true)
                   [Script.search_call "c1"; Script.calculator_call "c2";
                    Script.search_call "c3"]).
  { repeat constructor. discriminate. }
  destruct (one_search_per_registered_request
              Script.World Script.ada Script.requests_post Script.json_loads
              Script.json_dumps _ Hacc (Script.opening "q")
              (Script.start
                 (Script.mkWorld []
                    [Script.acme_results; Script.three_results])))
    as (qs & messages' & s' & Hd & Hq & Ht).
  exists qs, messages', s'.
  split; [exact Hd |].
  split; [exact (eq_sym (Forall2_length Hq)) | exact Ht].
Defined.

Lemma second_completion_content_is_the_reply_witness :
  Script.chat "What do you know about Acme Corp?" []
      (Script.mkWorld
         [Script.reply None (Some [Script.search_call "c1"]);
          Script.reply (Some "Acme is...")
            (Some [Script.search_call "c9"])]
         [Script.acme_results; Script.three_results])
    = (OK (Some "Acme is..."),
       mkState (Script.mkWorld [] [Script.three_results])
         ([CompletionCall (Some "model-1")
             (Script.opening "What do you know about Acme Corp?")
             (Some tools);
           SearchCall "https://google.serper.dev/search"
             [("X-API-KEY", Some "serper");
              ("Content-Type", Some "application/json")]
             (Script.json_dumps (PDict [("q", PStr "Acme Corp")]))]
          ++ [CompletionCall (Some "model-1")
                (Script.opening "What do you know about Acme Corp?"
                   ++ [MObj (Script.request [Script.search_call "c1"]);
                       tool_message "c1"
                         (Script.json_dumps
                            (PList [PDict [("title", PStr "Acme")]]))])
                None])).
Proof.
  assert (Hne : requested_calls (Script.request [Script.search_call "c1"])
                <> []) by discriminate.
  exact (second_completion_content_is_the_reply
           Script.World Script.ada Script.completions_create
           Script.requests_post Script.json_loads Script.json_dumps
           "What do you know about Acme Corp?" []
           (Script.start
              (Script.mkWorld
                 [Script.reply None (Some [Script.search_call "c1"]);
                  Script.reply (Some "Acme is...")
                    (Some [Script.search_call "c9"])]
                 [Script.acme_results; Script.three_results]))
           (Script.opening "What do you know about Acme Corp?")
           (mkCompletion
              [mkChoice (Script.request [Script.search_call "c1"])])
           (Script.mkWorld
              [Script.reply (Some "Acme is...")
                 (Some [Script.search_call "c9"])]
              [Script.acme_results; Script.three_results])
           (Script.request [Script.search_call "c1"])
           _ _
           (mkCompletion
              [mkChoice (mkMessage (Some "Acme is...")
                           (Some [Script.search_call "c9"]))])
           (Script.mkWorld [] [Script.three_results])
           (mkMessage (Some "Acme is...") (Some [Script.search_call "c9"]))
           eq_refl eq_refl eq_refl Hne eq_refl eq_refl eq_refl).
Defined.

Lemma completion_without_choices_is_a_system_error_witness :
  Script.chat "q" [] (Script.mkWorld [OK (mkCompletion [])] [])
    = (OK (Some "System Error: list index out of range"),
       mkState (Script.mkWorld [] [])
         [CompletionCall (Some "model-1") (Script.opening "q") (Some tools)]).
Proof.
  exact (proj1 (completion_without_choices_is_a_system_error
                  Script.World Script.ada Script.completions_create
                  Script.requests_post Script.json_loads Script.json_dumps
                  "q" []
                  (Script.start (Script.mkWorld [OK (mkCompletion [])] []))
                  (Script.opening "q") eq_refl)
               (mkCompletion []) (Script.mkWorld [] []) eq_refl eq_refl).
Defined.

Lemma chat_raises_exactly_on_empty_sequence_entries_witness :
  (exists e,
      Script.chat "q" [PList [PStr "hi"; PStr "hello"]; PTuple []]
          (Script.mkWorld [Script.reply (Some "unreached") None] [])
        = (Raise e,
           Script.start
             (Script.mkWorld [Script.reply (Some "unreached") None] []))
      /\ exn_class e = "IndexError") /\
  (exists reply s',
      Script.chat "q" [PList [PStr "hi"; PStr "hello"]; PInt 3]
          (Script.mkWorld [] [])
        = (OK reply, s')).
Proof.
  split.
  - exact (proj1 (chat_raises_exactly_on_empty_sequence_entries
                    Script.World Script.ada Script.completions_create
                    Script.requests_post Script.json_loads Script.json_dumps
                    "q" [PList [PStr "hi"; PStr "hello"]; PTuple []]
                    (Script.start
                       (Script.mkWorld
                          [Script.reply (Some "unreached") None] [])))
                 eq_refl).
  - exact (proj2 (chat_raises_exactly_on_empty_sequence_entries
                    Script.World Script.ada Script.completions_create
                    Script.requests_post Script.json_loads Script.json_dumps
                    "q" [PList [PStr "hi"; PStr "hello"]; PInt 3]
                    (Script.start (Script.mkWorld [] [])))
                 eq_refl).
Defined.

(** ** From the data folder to the prompt *)

Lemma substring_of_trans (a b c : string) :
  substring_of a b -> substring_of b c -> substring_of a c.
Proof.
  intros (p1 & q1 & ->) (p2 & q2 & ->).
  exists (p2 ++ p1)%string, (q1 ++ q2)%string.
  now rewrite !string_app_assoc.
Qed.

Lemma substring_of_fold_append (x : string) (l : list string) :
  In x l -> substring_of x (fold_right append "" l).
Proof.
  induction l as [| y l IH]; intros H; [destruct H |].
  destruct H as [-> | H].
  - exists ""%string, (fold_right append "" l). reflexivity.
  - destruct (IH H) as (p & q & E).
    exists (y ++ p)%string, q. cbn [fold_right]. rewrite E.
    now rewrite string_app_assoc.
Qed.

Lemma substring_of_page_texts (text : string) (texts : list string) :
  In text texts ->
  substring_of text
    (fold_right (fun t acc => t ++ nl ++ acc)%string "" texts).
Proof.
  induction texts as [| y texts IH]; intros H; [destruct H |].
  destruct H as [-> | H].
  - exists ""%string. eexists. reflexivity.
  - destruct (IH H) as (p & q & E).
    exists (y ++ nl ++ p)%string, q. cbn [fold_right]. rewrite E.
    now rewrite !string_app_assoc.
Qed.

Lemma context_in_system_prompt (cfg : Config) :
  substring_of (GLOBAL_CONTEXT cfg) (system_prompt cfg).
Proof.
  unfold system_prompt, substring_of.
  generalize (fmt (USER_NAME cfg)) as n, (fmt (USER_ROLE cfg)) as r,
    (GLOBAL_CONTEXT cfg) as ctx.
  intros n r ctx.
  set (head1 := (nl ++ "    You are acting as ")%string).
  set (mid := ("." ++ nl ++
     "    " ++ nl ++
     "    ## DUAL GOAL" ++ nl ++
     "    1. **Candidate:** Answer impressively using the RESUME CONTEXT." ++ nl ++
     "    2. **Coach:** After the answer, explain WHY it is good." ++ nl ++
     nl ++
     "    ## INSTRUCTIONS" ++ nl ++
     "    - Speak in First Person (" ++ dq ++ "I" ++ dq ++ ", "
       ++ dq ++ "Me" ++ dq ++ ")." ++ nl ++
     "    - Use the STAR Method (Situation, Task, Action, Result)." ++ nl ++
     "    - If asked about a company, use 'google_search' first." ++ nl ++
     "    - End with a 'Coach's Note'." ++ nl ++
     nl ++
     "    ## RESUME CONTEXT" ++ nl ++
     "    ")%string).
  exists (head1 ++ n ++ ", a " ++ r ++ mid)%string, (nl ++ "    ")%string.
  subst head1 mid.
  repeat rewrite string_app_assoc. reflexivity.
Qed.

(** X22.  What is loaded reaches the model: when the knowledge context of
    the configuration is what [load_context] returned for the data folder,
    the text of every text file of the folder that can be read, and the
    text of every page of a PDF that comes before a page that fails, occur
    in the system prompt. *)
Theorem loaded_text_reaches_the_prompt :
  forall (files : list (string * File)) (cfg : Config) (filename : string)
         (f : File) (text : string),
    load_context (Present (OK files)) = OK (GLOBAL_CONTEXT cfg) ->
    In (filename, f) files ->
    (endswith filename ".pdf" = false /\ endswith filename ".txt" = true
       /\ read_text f = OK text) \/
    (endswith filename ".pdf" = true /\
     exists texts tail,
       pdf_pages f = OK (map OK texts ++ tail) /\
       (tail = [] \/ exists e rest, tail = Raise e :: rest) /\
       In text texts) ->
    substring_of text (system_prompt cfg).
Proof.
  intros files cfg filename f text Hload Hin Hf.
  apply substring_of_trans with (b := GLOBAL_CONTEXT cfg);
    [| apply context_in_system_prompt].
  cbn in Hload. injection Hload as <-. rewrite load_files_context.
  cbn [append].
  apply substring_of_trans with (b := snd (load_file filename f "")).
  - unfold load_file.
    destruct Hf as [(Hpdf & Htxt & Hr) | (Hpdf & texts & tail & Hp & Ht & Hi)].
    + rewrite Hpdf, Htxt, Hr. cbn.
      exists ""%string, ""%string. now rewrite string_app_nil_r.
    + rewrite Hpdf, Hp, (extract_pages_texts texts tail "" Ht).
      cbn [append]. now apply substring_of_page_texts.
  - apply substring_of_fold_append.
    apply (in_map (fun nf => snd (load_file (fst nf) (snd nf) ""))) in Hin.
    exact Hin.
Qed.

Lemma loaded_text_reaches_the_prompt_witness :
  substring_of "Notes on Ada." (system_prompt Script.librarian) /\
  substring_of "Page two" (system_prompt Script.librarian).
Proof.
  split.
  - apply (loaded_text_reaches_the_prompt
             [("notes.txt", Script.notes_txt); ("photo.png", Script.image_png);
              ("cv.pdf", Script.cv_pdf)]
             Script.librarian "notes.txt" Script.notes_txt "Notes on Ada.").
    + reflexivity.
    + left. reflexivity.
    + left. repeat split.
  - apply (loaded_text_reaches_the_prompt
             [("notes.txt", Script.notes_txt); ("photo.png", Script.image_png);
              ("cv.pdf", Script.cv_pdf)]
             Script.librarian "cv.pdf" Script.cv_pdf "Page two").
    + reflexivity.
    + right. right. left. reflexivity.
    + right. split; [reflexivity |].
      exists ["Page one"; "Page two"], []. repeat split.
      * now left.
      * right. now left.
Defined.

(** ** The round of dispatch and the second completion *)

Section DispatchRound.

Variable World : Type.
Variable cfg : Config.
Variable completions_create :
  option string -> list Message -> option pyval -> World ->
  result ChatCompletion * World.
Variable requests_post :
  string -> list (string * option string) -> string -> World ->
  result HttpResponse * World.
Variable json_loads : string -> result pyval.
Variable json_dumps : pyval -> string.

Local Abbreviation search := (google_search World cfg requests_post json_dumps).
Local Abbreviation run_dispatch :=
  (dispatch World cfg requests_post json_loads json_dumps).
Local Abbreviation run_chat :=
  (chat World cfg completions_create requests_post json_loads json_dumps).
Local Abbreviation accepted := (accepts_arguments json_loads).
Local Abbreviation query_of := (requested_query json_loads).

Local Abbreviation posted query :=
  (SearchCall "https://google.serper.dev/search"
     [("X-API-KEY", SERPER_API_KEY cfg);
      ("Content-Type", Some "application/json")]
     (json_dumps (PDict [("q", query)]))).

Local Abbreviation first_call msgs :=
  (CompletionCall (MODEL_NAME cfg) msgs (Some tools)).

Local Abbreviation second_call msgs :=
  (CompletionCall (MODEL_NAME cfg) msgs None).

(** When the arguments of every registered request fit, the loop returns:
    it has made one search request per registered request, with its query,
    and appended one answering tool message per registered request. *)
Lemma dispatch_round (calls : list ToolCall) :
  Forall (fun tc => registered tc = true -> accepted tc = true) calls ->
  forall (messages : list Message) (s : State World),
    exists qs tms s',
      run_dispatch calls messages s = (OK (messages ++ tms), s') /\
      Forall2 (fun tc q => query_of tc = Some q) (filter registered calls) qs /\
      Forall2 answers (filter registered calls) tms /\
      trace s' = trace s ++ map (fun q => posted q) qs.
Proof.
  induction 1 as [| tool_call rest Ha _ IH]; intros messages s.
  - exists [], [], s. cbn. rewrite !app_nil_r. repeat split; constructor.
  - cbn [dispatch filter]. destruct (registered tool_call) eqn:R; [| apply IH].
    destruct (search_kwargs_query World cfg requests_post json_loads
                json_dumps tool_call s (Ha eq_refl))
      as (args & q & Hj & Hq & Hs).
    unfold bind at 1, lift. rewrite Hj.
    unfold bind at 1. rewrite Hs, (google_search_run World cfg).
    match goal with
    | |- context [run_dispatch rest (messages ++ [?tm]) ?st] =>
        destruct (IH (messages ++ [tm]) st)
          as (qs & tms & s' & Hd & Hf & Hans & Ht);
        exists (q :: qs), (tm :: tms), s'
    end.
    rewrite Hd, <- app_assoc. split; [reflexivity |].
    split; [constructor; assumption |].
    split; [constructor; [eexists; reflexivity | exact Hans] |].
    rewrite Ht. cbn [trace map]. now rewrite <- app_assoc.
Qed.

(** When the arguments of some registered request do not decode or do not
    fit, the loop raises. *)
Lemma dispatch_raises (calls : list ToolCall) :
  Exists (fun tc => registered tc = true /\ accepted tc = false) calls ->
  forall (messages : list Message) (s : State World),
    exists e s', run_dispatch calls messages s = (Raise e, s').
Proof.
  induction calls as [| tool_call rest IH]; intros Hex messages s.
  - inversion Hex.
  - cbn [dispatch]. destruct (registered tool_call) eqn:R.
    + destruct (accepted tool_call) eqn:A.
      * destruct (search_kwargs_query World cfg requests_post json_loads
                    json_dumps tool_call s A) as (args & q & Hj & _ & Hs).
        unfold bind at 1, lift. rewrite Hj.
        unfold bind at 1. rewrite Hs, (google_search_run World cfg).
        apply IH. inversion Hex as [? ? [_ Hf] | ? ? Hrest]; [| exact Hrest].
        rewrite A in Hf. discriminate.
      * unfold bind at 1, lift.
        destruct (json_loads (arguments (function tool_call)))
          as [args | e] eqn:Hj; [| eauto].
        destruct (search_kwargs_rejected World cfg requests_post json_loads
                    json_dumps tool_call args s Hj A) as (e & He & _).
        unfold bind at 1. rewrite He. eauto.
    + apply IH. inversion Hex as [? ? [Hr _] | ? ? Hrest]; [| exact Hrest].
      rewrite R in Hr. discriminate.
Qed.

(** C8 (as amended).  In every turn the calls [chat] makes are, in order:
    nothing (the history could not be normalized), or the first completion
    call carrying the tool specs, followed by search requests only,
    followed or not by one second completion call; the second completion
    call carries no tool specs, its conversation is the one of the first
    call extended by the assistant message of the first response and by
    one tool message per request that names [google_search], and nothing
    follows it: a turn has at most one round of dispatch.  When the first
    completion requests at least one tool call and the arguments of every
    request that names [google_search] decode to an object with the single
    key [query], the second completion call is issued, after exactly one
    search request per such request carrying its query.  When the
    arguments of some such request do not decode or do not fit, no second
    completion call is issued and the reply is a "System Error" text. *)
Theorem at_most_one_dispatch_round :
  forall (message : string) (history : list pyval) (s : State World),
    (exists evs,
        trace (snd (run_chat message history s)) = trace s ++ evs /\
        (evs = [] \/
         exists msgs searches,
           build_messages cfg message history = OK msgs /\
           forallb is_search searches = true /\
           (evs = first_call msgs :: searches \/
            exists response w1 msg tms,
              completions_create (MODEL_NAME cfg) msgs (Some tools) (world s)
                = (OK response, w1) /\
              first_message response = OK msg /\
              Forall2 answers (filter registered (requested_calls msg)) tms /\
              length searches = length tms /\
              evs = first_call msgs :: searches
                      ++ [second_call (msgs ++ MObj msg :: tms)]))) /\
    (forall msgs response w1 msg,
        build_messages cfg message history = OK msgs ->
        completions_create (MODEL_NAME cfg) msgs (Some tools) (world s)
          = (OK response, w1) ->
        first_message response = OK msg ->
        requested_calls msg <> [] ->
        (Forall (fun tc => registered tc = true -> accepted tc = true)
                (requested_calls msg) ->
         exists qs tms,
           Forall2 (fun tc q => query_of tc = Some q)
                   (filter registered (requested_calls msg)) qs /\
           Forall2 answers (filter registered (requested_calls msg)) tms /\
           trace (snd (run_chat message history s))
             = trace s ++ first_call msgs :: map (fun q => posted q) qs
                 ++ [second_call (msgs ++ MObj msg :: tms)]) /\
        (Exists (fun tc => registered tc = true /\ accepted tc = false)
                (requested_calls msg) ->
         exists searches text s',
           forallb is_search searches = true /\
           trace s' = trace s ++ first_call msgs :: searches /\
           run_chat message history s
             = (OK (Some ("System Error: " ++ text)%string), s'))).
Proof.
  intros message history s. split.
  - destruct (build_messages cfg message history) as [msgs | e] eqn:Hb.
    2: { exists []. split; [| now left].
         unfold chat, bind, lift. rewrite Hb. cbn. now rewrite app_nil_r. }
    rewrite (chat_after_normalization World cfg _ _ _ _ _ _ _ _ Hb).
    rewrite turn_first_phase.
    destruct (completions_create (MODEL_NAME cfg) msgs (Some tools) (world s))
      as [[response | e] w1] eqn:Hc.
    2: { exists [first_call msgs]. split; [reflexivity |].
         right. exists msgs, []. repeat split. now left. }
    destruct (first_message response) as [msg | e] eqn:Hm.
    2: { exists [first_call msgs]. split; [reflexivity |].
         right. exists msgs, []. repeat split. now left. }
    destruct (requested_calls msg) as [| c calls] eqn:E.
    { exists [first_call msgs]. split; [reflexivity |].
      right. exists msgs, []. repeat split. now left. }
    rewrite <- E.
    destruct (run_dispatch (requested_calls msg) (msgs ++ [MObj msg])
                (mkState w1 (trace s ++ [first_call msgs])))
      as [r2 s2] eqn:Hd.
    destruct (dispatch_trace World cfg requests_post json_loads json_dumps
                _ _ _ _ _ Hd) as (evs & Ht & Hs & Hmsgs).
    cbn [trace] in Ht.
    destruct r2 as [msgs2 | e].
    + destruct (Hmsgs msgs2 eq_refl) as (tms & -> & Hans & Hlen).
      exists (first_call msgs :: evs
                ++ [second_call (msgs ++ MObj msg :: tms)]).
      split.
      * rewrite <- (app_assoc msgs [MObj msg] tms). cbn [app].
        destruct (completions_create (MODEL_NAME cfg)
                    (msgs ++ MObj msg :: tms) None (world s2))
          as [[final_res | e] w3];
          [destruct (first_message final_res) |];
          cbn [snd trace]; rewrite Ht, <- !app_assoc; reflexivity.
      * right. exists msgs, evs. split; [reflexivity |].
        split; [exact Hs |].
        right. exists response, w1, msg, tms. repeat split; assumption.
    + exists (first_call msgs :: evs). cbn [snd]. rewrite Ht, <- app_assoc.
      split; [reflexivity |].
      right. exists msgs, evs. repeat split; [exact Hs | now left].
  - intros msgs response w1 msg Hb Hc Hm Hne.
    rewrite (chat_after_normalization World cfg _ _ _ _ _ _ _ _ Hb).
    rewrite turn_first_phase, Hc, Hm.
    destruct (requested_calls msg) as [| c calls] eqn:E; [now elim Hne |].
    rewrite <- E in *. clear E c calls. split.
    + intros Hacc.
      destruct (dispatch_round _ Hacc (msgs ++ [MObj msg])
                  (mkState w1 (trace s ++ [first_call msgs])))
        as (qs & tms & s2 & Hd & Hq & Hans & Ht).
      cbn [trace] in Ht.
      exists qs, tms. split; [exact Hq |]. split; [exact Hans |].
      rewrite Hd, <- (app_assoc msgs [MObj msg] tms). cbn [app].
      destruct (completions_create (MODEL_NAME cfg)
                  (msgs ++ MObj msg :: tms) None (world s2))
        as [[final_res | e] w3];
        [destruct (first_message final_res) |];
        cbn [snd trace]; rewrite Ht, <- !app_assoc; reflexivity.
    + intros Hex.
      destruct (dispatch_raises _ Hex (msgs ++ [MObj msg])
                  (mkState w1 (trace s ++ [first_call msgs])))
        as (e & s2 & Hd).
      destruct (dispatch_trace World cfg requests_post json_loads json_dumps
                  _ _ _ _ _ Hd) as (evs & Ht & Hs & _).
      cbn [trace] in Ht.
      exists evs, (exn_text e), s2. split; [exact Hs |].
      split; [now rewrite Ht, <- app_assoc |].
      rewrite Hd. reflexivity.
Qed.

End DispatchRound.

(** A request for the search tool whose arguments are not JSON: the turn
    ends with the first completion call as its only call; the second
    completion, whose reply is still waiting in the script, is not
    issued. *)
Lemma garbled_arguments_leave_no_second_completion :
  Script.chat "q" []
      (Script.mkWorld
         [Script.reply None (Some [Script.garbled_call "c1"]);
          Script.reply (Some "unreached") None]
         [Script.acme_results])
    = (OK (Some "System Error: Expecting value: line 1 column 1 (char 0)"),
       mkState
         (Script.mkWorld [Script.reply (Some "unreached") None]
            [Script.acme_results])
         [CompletionCall (Some "model-1") (Script.opening "q") (Some tools)])
  /\ length (requested_calls (Script.request [Script.garbled_call "c1"])) = 1.
Proof.
  split; reflexivity.
Qed.

Lemma at_most_one_dispatch_round_witness :
  (exists qs tms,
      Forall2 (fun tc q => requested_query Script.json_loads tc = Some q)
              [Script.search_call "c1"; Script.search_call "c3"] qs /\
      Forall2 answers [Script.search_call "c1"; Script.search_call "c3"] tms /\
      trace (snd (Script.chat "What do you know about Acme Corp?" []
                    (Script.mkWorld
                       [Script.reply None
                          (Some [Script.search_call "c1";
                                 Script.calculator_call "c2";
                                 Script.search_call "c3"]);
                        Script.reply (Some "Acme is...") None]
                       [Script.acme_results; Script.three_results])))
        = CompletionCall (Some "model-1")
            (Script.opening "What do you know about Acme Corp?") (Some tools)
          :: map (fun q =>
                    SearchCall "https://google.serper.dev/search"
                      [("X-API-KEY", Some "serper");
                       ("Content-Type", Some "application/json")]
                      (Script.json_dumps (PDict [("q", q)]))) qs
          ++ [CompletionCall (Some "model-1")
                (Script.opening "What do you know about Acme Corp?"
                   ++ MObj (Script.request [Script.search_call "c1";
                                            Script.calculator_call "c2";
                                            Script.search_call "c3"])
                   :: tms)
                None]) /\
  (exists searches text s',
      forallb is_search searches = true /\
      trace s'
        = CompletionCall (Some "model-1") (Script.opening "q") (Some tools)
          :: searches /\
      Script.chat "q" []
          (Script.mkWorld
             [Script.reply None
                (Some [Script.search_call "c1"; Script.garbled_call "c2"]);
              Script.reply (Some "unreached") None]
             [Script.acme_results])
        = (OK (Some ("System Error: " ++ text)%string), s')).
Proof.
  split.
  - assert (Hne : requested_calls
                    (Script.request [Script.search_call "c1";
                                     Script.calculator_call "c2";
                                     Script.search_call "c3"]) <> [])
      by discriminate.
    assert (Hacc : Forall
                     (fun tc => registered tc = true ->
                                accepts_arguments Script.json_loads tc = true)
                     (requested_calls
                        (Script.request [Script.search_call "c1";
                                         Script.calculator_call "c2";
                                         Script.search_call "c3"]))).
    { repeat constructor. discriminate. }
    exact (proj1 (proj2 (at_most_one_dispatch_round
                    Script.World Script.ada Script.completions_create
                    Script.requests_post Script.json_loads Script.json_dumps
                    "What do you know about Acme Corp?" []
                    (Script.start
                       (Script.mkWorld
                          [Script.reply None
                             (Some [Script.search_call "c1";
                                    Script.calculator_call "c2";
                                    Script.search_call "c3"]);
                           Script.reply (Some "Acme is...") None]
                          [Script.acme_results; Script.three_results])))
                   (Script.opening "What do you know about Acme Corp?")
                   (mkCompletion
                      [mkChoice (Script.request [Script.search_call "c1";
                                                 Script.calculator_call "c2";
                                                 Script.search_call "c3"])])
                   (Script.mkWorld [Script.reply (Some "Acme is...") None]
                      [Script.acme_results; Script.three_results])
                   (Script.request [Script.search_call "c1";
                                    Script.calculator_call "c2";
                                    Script.search_call "c3"])
                   eq_refl eq_refl eq_refl Hne) Hacc).
  - assert (Hne : requested_calls
                    (Script.request [Script.search_call "c1";
                                     Script.garbled_call "c2"]) <> [])
      by discriminate.
    assert (Hex : Exists
                    (fun tc => registered tc = true /\
                               accepts_arguments Script.json_loads tc = false)
                    (requested_calls
                       (Script.request [Script.search_call "c1";
                                        Script.garbled_call "c2"]))).
    { apply Exists_cons_tl, Exists_cons_hd. split; reflexivity. }
    exact (proj2 (proj2 (at_most_one_dispatch_round
                    Script.World Script.ada Script.completions_create
                    Script.requests_post Script.json_loads Script.json_dumps
                    "q" []
                    (Script.start
                       (Script.mkWorld
                          [Script.reply None
                             (Some [Script.search_call "c1";
                                    Script.garbled_call "c2"]);
                           Script.reply (Some "unreached") None]
                          [Script.acme_results])))
                   (Script.opening "q")
                   (mkCompletion
                      [mkChoice (Script.request [Script.search_call "c1";
                                                 Script.garbled_call "c2"])])
                   (Script.mkWorld [Script.reply (Some "unreached") None]
                      [Script.acme_results])
                   (Script.request [Script.search_call "c1";
                                    Script.garbled_call "c2"])
                   eq_refl eq_refl eq_refl Hne) Hex).
Defined.
